(** * Trading journal: the trade ledger, its analytics and its adapters

    A shallow embedding of the client-side core of the journal:
    - the [Trade] record of [types.ts];
    - the ledger held by [App] ([handleSaveTrade], [handleDeleteTrade], the
      two imports) together with the effect that writes it to the
      ['swing-trades'] entry of local storage;
    - the two forms that produce trades ([TradeModal], [ExitTradeModal]);
    - the figures derived by [JournalView] (win rate, unrealized P/L, the
      equity curve) and its CSV export;
    - the row parser of [fetchTradesFromSheet].

    JavaScript numbers are read as exact rationals ([Q]): every number the
    forms and the parser build is finite, and rounding is not modelled.
    Strings are byte strings; the characters the code inspects (the quote,
    the newline, the comma) are single bytes that occur nowhere inside a
    multi-byte character. *)

From Stdlib Require Import QArith Lqa.
From stdpp Require Import gmap strings list pretty sorting.

(** ** Data model ([types.ts]) *)

Inductive Status := open | closed.

Inductive Mindset := Disciplined | FOMO | Anxious | Confident | Neutral.

Record ChartImage := { base64 : string; analysis : option string }.

(** Optional properties ([mindset?], [pnl?], ...) are options: [None] is the
    property being [undefined]. *)
Record Trade := {
  id : string;
  ticker : string;
  entryDate : string;
  entryPrice : Q;
  shares : Q;
  strategy : string;
  notes : string;
  status : Status;
  mindset : option Mindset;
  stopLoss : option Q;
  takeProfit : option Q;
  exitDate : option string;
  exitPrice : option Q;
  chartImage : option ChartImage;
  pnl : option Q;
  isWin : option bool
}.

#[global] Instance Status_eq_dec : EqDecision Status.
Proof. solve_decision. Defined.

(** ** The ledger ([App]) *)

Module Ledger.

(** [handleSaveTrade]: the updater handed to [setTrades].  [findIndex] is
    [list_find] (first match), [newTrades[index] = trade] is the list
    insert at an index that is in range. *)
Definition handleSaveTrade (trade : Trade) (prevTrades : list Trade) : list Trade :=
  match list_find (λ t, id t = id trade) prevTrades with
  | Some (index, _) => <[index:=trade]> prevTrades
  | None => trade :: prevTrades
  end.

(** [handleDeleteTrade], once the confirmation dialog is accepted. *)
Definition handleDeleteTrade (tradeId : string) (prev : list Trade) : list Trade :=
  filter (λ t, id t ≠ tradeId) prev.

(** The component state that matters here: the [trades] state variable and
    the ['swing-trades'] entry of local storage.  The entry holds the JSON
    text of a trade array; it is identified with the array it denotes, and
    [None] is the entry being absent. *)
Record App := { trades : list Trade; swing_trades : option (list Trade) }.

(** What the user and the remote services can make the component do.  The
    booleans are the answers to [window.confirm]; an import carries what the
    fetch produced, [None] when it threw. *)
Inductive Action :=
| SaveTrade (trade : Trade)
| DeleteTrade (tradeId : string) (confirmed : bool)
| ImportFromBroker (hasCreds confirmed : bool) (fetched : option (list Trade))
| ImportFromSheets (confirmed : bool) (fetched : option (list Trade)).

(** The call to [setTrades] a handler makes, if it makes one. *)
Definition handler (a : Action) : option (list Trade → list Trade) :=
  match a with
  | SaveTrade trade => Some (handleSaveTrade trade)
  | DeleteTrade tradeId confirmed =>
      if confirmed then Some (handleDeleteTrade tradeId) else None
  | ImportFromBroker hasCreds confirmed fetched =>
      if hasCreds && confirmed
      then match fetched with
           | Some importedTrades => Some (λ _, importedTrades)
           | None => None
           end
      else None
  | ImportFromSheets confirmed fetched =>
      if confirmed
      then match fetched with
           | Some importedTrades => Some (λ _, importedTrades)
           | None => None
           end
      else None
  end.

(** [setTrades]: the next render sees the updated array. *)
Definition setTrades (upd : list Trade → list Trade) (s : App) : App :=
  {| trades := upd (trades s); swing_trades := swing_trades s |}.

(** The effect with dependency [[trades]]:
    [localStorage.setItem('swing-trades', JSON.stringify(trades))]. *)
Definition persistEffect (s : App) : App :=
  {| trades := trades s; swing_trades := Some (trades s) |}.

(** One operation: the handler runs, React re-renders with the new array and
    then runs the effect, since every updater above builds a new array.  A
    handler that never calls [setTrades] leaves everything as it was. *)
Definition step (s : App) (a : Action) : App :=
  match handler a with
  | Some upd => persistEffect (setTrades upd s)
  | None => s
  end.

(** Mounting: the first render has [trades = []].  The first effect reads
    the entry and, when it is there, calls [setTrades] with it; the second
    effect writes the array of the first render; the re-render caused by the
    first effect then runs the second effect again. *)
Definition mount (saved : option (list Trade)) : App :=
  let first := {| trades := []; swing_trades := saved |} in
  let written := persistEffect first in
  match saved with
  | Some savedTrades => persistEffect (setTrades (λ _, savedTrades) written)
  | None => written
  end.

Definition run (saved : option (list Trade)) (acts : list Action) : App :=
  foldl step (mount saved) acts.


(** The ledger contract as the specification words it, for comparison. *)
Inductive LedgerError := ValidationError | NotFoundError.

Definition update_spec (trade : Trade) (l : list Trade) : LedgerError + list Trade :=
  match list_find (λ t, id t = id trade) l with
  | Some (index, _) => inr (<[index:=trade]> l)
  | None => inl NotFoundError
  end.

End Ledger.

(** ** JavaScript idioms used by the forms and the parser *)

(** The newline character, and the one-character string holding it. *)
Definition newline : Ascii.ascii :=
  Ascii.Ascii false true false true false false false false.  (* code 10 *)
Definition LF : string := String newline "".

(** [x || d] for an optional number: [undefined] and [0] give [d]. *)
Definition num_or (x : option Q) (d : Q) : Q :=
  match x with
  | Some q => if Qeq_bool q 0 then d else q
  | None => d
  end.

(** [x || d] for an optional string: [undefined] and [''] give [d]. *)
Definition str_or (x : option string) (d : string) : string :=
  match x with
  | Some s => if decide (s = "") then d else s
  | None => d
  end.

(** Truthiness of a string and of a number. *)
Definition truthy_str (s : string) : bool := bool_decide (s ≠ "").
Definition truthy_num (q : Q) : bool := negb (Qeq_bool q 0).

(** [a > 0] on numbers. *)
Definition Qpos_b (q : Q) : bool := negb (Qle_bool q 0).

(** The derived fields, as both forms compute them:
    [(exitPrice - entryPrice) * shares] and [pnl > 0]. *)
Definition compute_pnl (exitPrice entryPrice shares : Q) : Q :=
  ((exitPrice - entryPrice) * shares)%Q.

(** ** The trade form ([TradeModal]) *)

(** The draft held by the form: [Omit<Trade, 'id' | 'status'>].  The form
    always stores a value for [mindset], [stopLoss], [takeProfit],
    [exitDate] and [exitPrice] (see [emptyTrade] and the pre-fill), and
    never a [pnl] or an [isWin]. *)
Module Draft.
Record t := {
  ticker : string;
  entryDate : string;
  entryPrice : Q;
  shares : Q;
  strategy : string;
  notes : string;
  mindset : Mindset;
  stopLoss : Q;
  takeProfit : Q;
  exitDate : string;
  exitPrice : Q;
  chartImage : option ChartImage
}.
End Draft.

Module TradeModal.

Definition emptyTrade : Draft.t :=
  {| Draft.ticker := ""; Draft.entryDate := ""; Draft.entryPrice := 0;
     Draft.shares := 0; Draft.strategy := ""; Draft.notes := "";
     Draft.mindset := Neutral; Draft.stopLoss := 0; Draft.takeProfit := 0;
     Draft.exitDate := ""; Draft.exitPrice := 0; Draft.chartImage := None |}.

(** The state of the form that reaches the saved trade. *)
Record State := {
  trade : Draft.t;
  imageBase64 : option string;
  analysisText : string
}.

(** The effect that runs when the form opens.  With a trade to edit, [id],
    [status], [pnl] and [isWin] are dropped and the rest pre-fills the
    draft; [today] is the date part of the clock. *)
Definition prefill (tradeToEdit : Trade) : Draft.t :=
  {| Draft.ticker := ticker tradeToEdit;
     Draft.entryDate := entryDate tradeToEdit;
     Draft.entryPrice := entryPrice tradeToEdit;
     Draft.shares := shares tradeToEdit;
     Draft.strategy := strategy tradeToEdit;
     Draft.notes := notes tradeToEdit;
     Draft.mindset := default Neutral (mindset tradeToEdit);
     Draft.stopLoss := num_or (stopLoss tradeToEdit) 0;
     Draft.takeProfit := num_or (takeProfit tradeToEdit) 0;
     Draft.exitDate := str_or (exitDate tradeToEdit) "";
     Draft.exitPrice := num_or (exitPrice tradeToEdit) 0;
     Draft.chartImage := chartImage tradeToEdit |}.

Definition set_entryDate (v : string) (d : Draft.t) : Draft.t :=
  {| Draft.ticker := Draft.ticker d; Draft.entryDate := v;
     Draft.entryPrice := Draft.entryPrice d; Draft.shares := Draft.shares d;
     Draft.strategy := Draft.strategy d; Draft.notes := Draft.notes d;
     Draft.mindset := Draft.mindset d; Draft.stopLoss := Draft.stopLoss d;
     Draft.takeProfit := Draft.takeProfit d; Draft.exitDate := Draft.exitDate d;
     Draft.exitPrice := Draft.exitPrice d; Draft.chartImage := Draft.chartImage d |}.

Definition openForm (tradeToEdit : option Trade) (today : string) : State :=
  match tradeToEdit with
  | Some t =>
      {| trade := prefill t;
         imageBase64 :=
           match chartImage t with Some c => Some (base64 c) | None => None end;
         analysisText :=
           match chartImage t with Some c => str_or (analysis c) "" | None => "" end |}
  | None =>
      {| trade := set_entryDate today emptyTrade;
         imageBase64 := None;
         analysisText := "" |}
  end.

(** The inputs of the form, by their [name]. *)
Inductive Field :=
| f_ticker | f_entryDate | f_entryPrice | f_shares | f_stopLoss
| f_takeProfit | f_exitDate | f_exitPrice | f_strategy | f_notes.

Section WithParseFloat.

(** The platform's [parseFloat]; [None] is [NaN]. *)
Variable parseFloat : string → option Q.

(** [parseFloat(value) || 0] *)
Definition numeric (value : string) : Q := num_or (parseFloat value) 0.

(** [handleChange]: [setTrade(prev => ({ ...prev, [name]: ... }))].  The
    [mindset] select offers the five tags, so its change carries one. *)
Definition handleChange (name : Field) (value : string) (prev : Draft.t) : Draft.t :=
  let upd tk ed ep sh st nt sl tp xd xp :=
    {| Draft.ticker := tk; Draft.entryDate := ed; Draft.entryPrice := ep;
       Draft.shares := sh; Draft.strategy := st; Draft.notes := nt;
       Draft.mindset := Draft.mindset prev; Draft.stopLoss := sl;
       Draft.takeProfit := tp; Draft.exitDate := xd; Draft.exitPrice := xp;
       Draft.chartImage := Draft.chartImage prev |} in
  let '(tk, ed, ep, sh, st) :=
    (Draft.ticker prev, Draft.entryDate prev, Draft.entryPrice prev,
     Draft.shares prev, Draft.strategy prev) in
  let '(nt, sl, tp, xd, xp) :=
    (Draft.notes prev, Draft.stopLoss prev, Draft.takeProfit prev,
     Draft.exitDate prev, Draft.exitPrice prev) in
  match name with
  | f_ticker => upd value ed ep sh st nt sl tp xd xp
  | f_entryDate => upd tk value ep sh st nt sl tp xd xp
  | f_entryPrice => upd tk ed (numeric value) sh st nt sl tp xd xp
  | f_shares => upd tk ed ep (numeric value) st nt sl tp xd xp
  | f_stopLoss => upd tk ed ep sh st nt (numeric value) tp xd xp
  | f_takeProfit => upd tk ed ep sh st nt sl (numeric value) xd xp
  | f_exitDate => upd tk ed ep sh st nt sl tp value xp
  | f_exitPrice => upd tk ed ep sh st nt sl tp xd (numeric value)
  | f_strategy => upd tk ed ep sh value nt sl tp xd xp
  | f_notes => upd tk ed ep sh st value sl tp xd xp
  end.

Definition handleMindset (m : Mindset) (prev : Draft.t) : Draft.t :=
  {| Draft.ticker := Draft.ticker prev; Draft.entryDate := Draft.entryDate prev;
     Draft.entryPrice := Draft.entryPrice prev; Draft.shares := Draft.shares prev;
     Draft.strategy := Draft.strategy prev; Draft.notes := Draft.notes prev;
     Draft.mindset := m; Draft.stopLoss := Draft.stopLoss prev;
     Draft.takeProfit := Draft.takeProfit prev; Draft.exitDate := Draft.exitDate prev;
     Draft.exitPrice := Draft.exitPrice prev; Draft.chartImage := Draft.chartImage prev |}.

(** [handleFetchPrice]: with a ticker typed and a price found, the price
    becomes the entry price; otherwise the draft stays as it is. *)
Definition handleFetchPrice (price : option Q) (prev : Draft.t) : Draft.t :=
  if truthy_str (Draft.ticker prev)
  then match price with
       | Some p =>
           {| Draft.ticker := Draft.ticker prev; Draft.entryDate := Draft.entryDate prev;
              Draft.entryPrice := p; Draft.shares := Draft.shares prev;
              Draft.strategy := Draft.strategy prev; Draft.notes := Draft.notes prev;
              Draft.mindset := Draft.mindset prev; Draft.stopLoss := Draft.stopLoss prev;
              Draft.takeProfit := Draft.takeProfit prev;
              Draft.exitDate := Draft.exitDate prev;
              Draft.exitPrice := Draft.exitPrice prev;
              Draft.chartImage := Draft.chartImage prev |}
       | None => prev
       end
  else prev.

(** What can happen to the form between its opening and its submission: a
    keystroke in an input, a choice in the mindset list, a click on a ticker
    suggestion, the answer of the price lookup, a chart file read, the answer
    of the chart analysis. *)
Inductive Input :=
| Change (name : Field) (value : string)
| Select (m : Mindset)
| Suggestion (ticker : string)
| FetchedPrice (price : option Q)
| FileRead (base64String : string)
| Analyzed (result : string).

Definition withTrade (d : Draft.t) (st : State) : State :=
  {| trade := d; imageBase64 := imageBase64 st; analysisText := analysisText st |}.

Definition input (st : State) (i : Input) : State :=
  match i with
  | Change name value => withTrade (handleChange name value (trade st)) st
  | Select m => withTrade (handleMindset m (trade st)) st
  | Suggestion tk => withTrade (handleChange f_ticker tk (trade st)) st
  | FetchedPrice price => withTrade (handleFetchPrice price (trade st)) st
  | FileRead base64String =>
      {| trade := trade st; imageBase64 := Some base64String; analysisText := "" |}
  | Analyzed result =>
      match imageBase64 st with
      | Some b =>
          if truthy_str b
          then {| trade := trade st; imageBase64 := imageBase64 st;
                  analysisText := result |}
          else st
      | None => st
      end
  end.

End WithParseFloat.

(** [trade.exitDate && trade.exitPrice && trade.exitPrice > 0] *)
Definition isClosing (d : Draft.t) : bool :=
  truthy_str (Draft.exitDate d) && truthy_num (Draft.exitPrice d)
  && Qpos_b (Draft.exitPrice d).

(** [handleSubmit]: the trade handed to [onSave].  [now] is
    [new Date().toISOString()]. *)
Definition handleSubmit (st : State) (tradeToEdit : option Trade) (now : string) : Trade :=
  let d := trade st in
  let pnl := if isClosing d
             then Some (compute_pnl (Draft.exitPrice d) (Draft.entryPrice d) (Draft.shares d))
             else None in
  let isWin := match pnl with Some p => Some (Qpos_b p) | None => None end in
  {| id := str_or (id <$> tradeToEdit) now;
     ticker := Draft.ticker d;
     entryDate := Draft.entryDate d;
     entryPrice := Draft.entryPrice d;
     shares := Draft.shares d;
     strategy := Draft.strategy d;
     notes := Draft.notes d;
     status := if isClosing d then closed else open;
     mindset := Some (Draft.mindset d);
     stopLoss := Some (Draft.stopLoss d);
     takeProfit := Some (Draft.takeProfit d);
     exitDate := if isClosing d then Some (Draft.exitDate d) else None;
     exitPrice := if isClosing d then Some (Draft.exitPrice d) else None;
     chartImage :=
       match imageBase64 st with
       | Some b => if truthy_str b
                   then Some {| base64 := b; analysis := Some (analysisText st) |}
                   else None
       | None => None
       end;
     pnl := pnl;
     isWin := isWin |}.

(** Editing a trade of the ledger: the form opens on it, takes the inputs
    and is submitted. *)
Definition edit (parseFloat : string → option Q) (tradeToEdit : Trade)
    (inputs : list Input) (today now : string) : Trade :=
  handleSubmit (foldl (input parseFloat) (openForm (Some tradeToEdit) today) inputs)
    (Some tradeToEdit) now.

(** Logging a new position. *)
Definition create (parseFloat : string → option Q) (inputs : list Input)
    (today now : string) : Trade :=
  handleSubmit (foldl (input parseFloat) (openForm None today) inputs) None now.



End TradeModal.

(** ** The exit form ([ExitTradeModal]) *)

Module ExitTradeModal.

Record State := {
  selectedTradeId : string;
  exitDateInput : string;
  exitPriceInput : Q;
  notesInput : string
}.

(** The [openTrades] prop: [trades.filter(t => t.status === 'open')]. *)
Definition openTrades (trades : list Trade) : list Trade :=
  filter (λ t, status t = open) trades.

(** [openTrades.find(t => t.id === selectedTradeId)] *)
Definition selectedTrade (st : State) (openTrades : list Trade) : option Trade :=
  snd <$> list_find (λ t, id t = selectedTradeId st) openTrades.

(** The live preview of the result, shown while the price is typed. *)
Definition pnlPreview (st : State) (openTrades : list Trade) : option (Q * bool) :=
  match selectedTrade st openTrades with
  | Some sel =>
      if truthy_num (exitPriceInput st) && Qpos_b (exitPriceInput st)
      then let pnl := compute_pnl (exitPriceInput st) (entryPrice sel) (shares sel) in
           Some (pnl, Qpos_b pnl)
      else None
  | None => None
  end.

Definition exitNotes (old new : string) : string :=
  if truthy_str old
  then old +:+ LF +:+ LF +:+ "Exit Notes: " +:+ new
  else "Exit Notes: " +:+ new.

(** [handleSubmit]: [None] is the alert and the early return, otherwise the
    trade handed to [onSave]. *)
Definition handleSubmit (st : State) (openTrades : list Trade) : option Trade :=
  match selectedTrade st openTrades with
  | Some sel =>
      if truthy_str (exitDateInput st) && truthy_num (exitPriceInput st)
         && Qpos_b (exitPriceInput st)
      then
        let pnl := compute_pnl (exitPriceInput st) (entryPrice sel) (shares sel) in
        Some {| id := id sel; ticker := ticker sel; entryDate := entryDate sel;
                entryPrice := entryPrice sel; shares := shares sel;
                strategy := strategy sel;
                notes := exitNotes (notes sel) (notesInput st);
                status := closed;
                mindset := mindset sel; stopLoss := stopLoss sel;
                takeProfit := takeProfit sel;
                exitDate := Some (exitDateInput st);
                exitPrice := Some (exitPriceInput st);
                chartImage := chartImage sel;
                pnl := Some pnl;
                isWin := Some (Qpos_b pnl) |}
      else None
  | None => None
  end.

End ExitTradeModal.

(** ** Derived figures ([JournalView]) *)

Module JournalView.

Definition closedTrades (trades : list Trade) : list Trade :=
  filter (λ t, status t = closed) trades.

Definition openTrades (trades : list Trade) : list Trade :=
  filter (λ t, status t = open) trades.

(** An array length as a number. *)
Definition len {A} (l : list A) : Q := inject_Z (Z.of_nat (length l)).

(** [closedTrades.reduce((acc, trade) => acc + (trade.pnl || 0), 0)] *)
Definition totalPnl (trades : list Trade) : Q :=
  foldl (λ acc trade, (acc + num_or (pnl trade) 0)%Q) 0%Q (closedTrades trades).

(** [t.isWin] as a condition: [undefined] and [false] are both falsy. *)
Definition isWin_truthy (t : Trade) : Prop := isWin t = Some true.

#[global] Instance isWin_truthy_dec t : Decision (isWin_truthy t).
Proof. unfold isWin_truthy. solve_decision. Defined.

Definition winningTrades (trades : list Trade) : nat :=
  length (filter isWin_truthy (closedTrades trades)).

Definition losingTrades (trades : list Trade) : nat :=
  length (closedTrades trades) - winningTrades trades.

Definition winRate (trades : list Trade) : Q :=
  if bool_decide (0 < length (closedTrades trades))%nat
  then ((inject_Z (Z.of_nat (winningTrades trades)) / len (closedTrades trades)) * 100)%Q
  else 0%Q.

(** The live prices: a JSON object whose values are numbers or [null]
    ([None]).  A ticker that is not a key reads as [undefined]. *)
Definition totalUnrealizedPnl (liveData : gmap string (option Q)) (trades : list Trade) : Q :=
  foldl (λ acc trade,
           match liveData !! ticker trade with
           | Some (Some currentPrice) =>
               (acc + (currentPrice - entryPrice trade) * shares trade)%Q
           | _ => acc
           end) 0%Q (openTrades trades).

(** *** The equity curve ([chartData]) *)

Record Point := { name : string; pnl_bar : option Q; cumulativePnl : Q }.

Section WithDate.

(** [new Date(s).getTime()]; [None] is [NaN] (an invalid date). *)
Variable getTime : string → option Z.

(** The comparator handed to [sort].  A [NaN] result counts as [0], as the
    language prescribes for comparators. *)
Definition compareEntry (a b : Trade) : Z :=
  match getTime (entryDate a), getTime (entryDate b) with
  | Some x, Some y => (x - y)%Z
  | _, _ => 0%Z
  end.

(** [Array.prototype.sort] with a comparator: the language makes it stable
    and, for a comparator that is an order, fixes the result.  It is
    modelled by insertion, which keeps [x] ahead of every element that does
    not compare strictly below it.  (For a comparator that is no order, as
    with an invalid date, the language leaves the result to the engine; the
    insertion is then one admissible answer.) *)
Fixpoint insert_sorted (x : Trade) (l : list Trade) : list Trade :=
  match l with
  | [] => [x]
  | y :: l' =>
      if decide (compareEntry x y ≤ 0)%Z then x :: y :: l'
      else y :: insert_sorted x l'
  end.

Definition sort (l : list Trade) : list Trade := foldr insert_sorted [] l.

(** One turn of the [reduce]: [acc[index - 1]?.cumulativePnl || 0] plus
    [trade.pnl || 0], pushed with the label and the trade's own [pnl]. *)
Definition prevCumulative (acc : list Point) (index : nat) : Q :=
  match index with
  | O => 0%Q
  | S i => num_or (cumulativePnl <$> acc !! i) 0
  end.

Definition pushPoint (acc : list Point) (index : nat) (trade : Trade) : list Point :=
  acc ++ [ {| name := "Trade " +:+ pretty (index + 1)%nat;
              pnl_bar := pnl trade;
              cumulativePnl := (prevCumulative acc index + num_or (pnl trade) 0)%Q |} ].

Fixpoint reduceFrom (index : nat) (acc : list Point) (l : list Trade) : list Point :=
  match l with
  | [] => acc
  | trade :: l' => reduceFrom (S index) (pushPoint acc index trade) l'
  end.

Definition chartData (trades : list Trade) : list Point :=
  reduceFrom 0 [] (sort (closedTrades trades)).

End WithDate.

End JournalView.

(** ** CSV export ([handleDownloadCsv]) *)

Module Csv.

Definition quote : Ascii.ascii :=
  Ascii.Ascii false true false false false true false false.  (* code 34 *)
Definition comma : Ascii.ascii :=
  Ascii.Ascii false false true true false true false false.  (* code 44 *)
Definition space : Ascii.ascii :=
  Ascii.Ascii false false false false false true false false.  (* code 32 *)

(** The value of [trade[fieldName]], by its [typeof]. *)
Inductive Value :=
| VString (s : string)
| VNumber (q : Q)
| VBoolean (b : bool)
| VUndefined.

Definition ofString (o : option string) : Value :=
  match o with Some s => VString s | None => VUndefined end.
Definition ofNumber (o : option Q) : Value :=
  match o with Some q => VNumber q | None => VUndefined end.
Definition ofBoolean (o : option bool) : Value :=
  match o with Some b => VBoolean b | None => VUndefined end.

Definition statusString (s : Status) : string :=
  match s with open => "open" | closed => "closed" end.

Inductive Column :=
| c_id | c_ticker | c_status | c_entryDate | c_entryPrice | c_exitDate
| c_exitPrice | c_shares | c_strategy | c_notes | c_pnl | c_isWin.

Definition header : list Column :=
  [c_id; c_ticker; c_status; c_entryDate; c_entryPrice; c_exitDate;
   c_exitPrice; c_shares; c_strategy; c_notes; c_pnl; c_isWin].

Definition columnName (c : Column) : string :=
  match c with
  | c_id => "id" | c_ticker => "ticker" | c_status => "status"
  | c_entryDate => "entryDate" | c_entryPrice => "entryPrice"
  | c_exitDate => "exitDate" | c_exitPrice => "exitPrice"
  | c_shares => "shares" | c_strategy => "strategy" | c_notes => "notes"
  | c_pnl => "pnl" | c_isWin => "isWin"
  end.

(** [trade[fieldName as keyof Trade]] *)
Definition get (trade : Trade) (c : Column) : Value :=
  match c with
  | c_id => VString (id trade)
  | c_ticker => VString (ticker trade)
  | c_status => VString (statusString (status trade))
  | c_entryDate => VString (entryDate trade)
  | c_entryPrice => VNumber (entryPrice trade)
  | c_exitDate => ofString (exitDate trade)
  | c_exitPrice => ofNumber (exitPrice trade)
  | c_shares => VNumber (shares trade)
  | c_strategy => VString (strategy trade)
  | c_notes => VString (notes trade)
  | c_pnl => ofNumber (pnl trade)
  | c_isWin => ofBoolean (isWin trade)
  end.

(** The first [replace] of the export: every quote character is doubled. *)
Fixpoint doubleQuotes (s : string) : string :=
  match s with
  | EmptyString => EmptyString
  | String c s' =>
      if decide (c = quote) then String quote (String quote (doubleQuotes s'))
      else String c (doubleQuotes s')
  end.

(** The second [replace]: every newline becomes a space. *)
Fixpoint newlinesToSpaces (s : string) : string :=
  match s with
  | EmptyString => EmptyString
  | String c s' =>
      String (if decide (c = newline) then space else c) (newlinesToSpaces s')
  end.

(** [values.join(',')] and [csvRows.join('\n')] *)
Fixpoint join (sep : string) (l : list string) : string :=
  match l with
  | [] => EmptyString
  | [x] => x
  | x :: l' => x +:+ sep +:+ join sep l'
  end.

Section WithNumberToString.

(** How [join] prints a number ([Number.prototype.toString]). *)
Variable numberToString : Q → string.

(** One cell of a data row. *)
Definition cellText (v : Value) : string :=
  match v with
  | VString value =>
      let strValue := newlinesToSpaces (doubleQuotes value) in
      String quote strValue +:+ String quote EmptyString
  | VUndefined => EmptyString
  | VNumber q => numberToString q
  | VBoolean b => if b then "true" else "false"
  end.

Definition csvRow (trade : Trade) : string :=
  join (String comma EmptyString) (cellText ∘ get trade <$> header).

(** The exported text; [None] is the alert on an empty ledger. *)
Definition csvString (trades : list Trade) : option string :=
  match trades with
  | [] => None
  | _ => Some (join LF (join (String comma EmptyString) (columnName <$> header)
                         :: (csvRow <$> trades)))
  end.

End WithNumberToString.

(** *** Reading a record back

    The journal only writes CSV.  The reader below is the receiving side
    the round trip is measured against: the quoting convention the
    specification names, where a field wrapped in quotes runs to its closing
    quote and a doubled quote inside it stands for one quote. *)

Inductive Mode :=
| AtStart      (* at the first character of a field *)
| Plain        (* inside a field that did not open with a quote *)
| InQuotes     (* inside a quoted field *)
| AfterQuote.  (* a quote was read inside a quoted field *)

Definition snoc (field : string) (c : Ascii.ascii) : string :=
  field +:+ String c EmptyString.

(** Reads one record; [field] is the text of the field being read and
    [done] the fields already closed. *)
Fixpoint readRecord (m : Mode) (field : string) (done : list string) (s : string)
  : list string :=
  match s with
  | EmptyString => done ++ [field]
  | String c s' =>
      match m with
      | InQuotes =>
          if decide (c = quote) then readRecord AfterQuote field done s'
          else readRecord InQuotes (snoc field c) done s'
      | AfterQuote =>
          if decide (c = quote) then readRecord InQuotes (snoc field quote) done s'
          else if decide (c = comma) then readRecord AtStart EmptyString (done ++ [field]) s'
          else readRecord Plain (snoc field c) done s'
      | AtStart =>
          if decide (c = quote) then readRecord InQuotes EmptyString done s'
          else if decide (c = comma) then readRecord AtStart EmptyString (done ++ [field]) s'
          else readRecord Plain (snoc field c) done s'
      | Plain =>
          if decide (c = comma) then readRecord AtStart EmptyString (done ++ [field]) s'
          else readRecord Plain (snoc field c) done s'
      end
  end.

Definition parseRecord (s : string) : list string :=
  readRecord AtStart EmptyString [] s.

(** The column a field name sits in. *)
Definition notesColumn : nat := 9.

End Csv.

(** ** Import from the spreadsheet ([fetchTradesFromSheet]) *)

Module Sheets.

(** A row is the array of formatted cell texts the sheet service answers
    with; cells past the last filled one are not there.

    What the row loop writes to the console; the number is [index + 2]. *)
Inductive Log :=
| SkippingMalformedRow (rowNumber : nat)
| SkippingMissingData (rowNumber : nat).

Section WithPlatform.

(** The platform's [parseFloat]; [None] is [NaN]. *)
Variable parseFloat : string → option Q.

(** [`sheet-import-${new Date().getTime()}-${index}`], by [index]. *)
Variable sheetImportId : nat → string.

(** [parseFloat(row[i]) || 0]: a cell that is not there parses to [NaN]. *)
Definition numberCell (row : list string) (i : nat) : Q :=
  num_or (row !! i ≫= parseFloat) 0.

(** The body of the [forEach] callback on one row: the trade it pushes, if
    any, and the warning it logs, if any. *)
Definition parseRow (index : nat) (row : list string) : option Trade * option Log :=
  if decide (length row < 4)%nat
  then (None, Some (SkippingMalformedRow (index + 2)))
  else
    let status := if decide (row !! 7%nat = Some "open") then open else closed in
    let b_id := str_or (row !! 0%nat) (sheetImportId index) in
    let b_ticker := str_or (row !! 1%nat) "" in
    let b_entryDate := str_or (row !! 2%nat) "" in
    let b_entryPrice := numberCell row 3 in
    let b_shares := numberCell row 4 in
    let b_strategy := str_or (row !! 5%nat) "" in
    let b_notes := str_or (row !! 6%nat) "" in
    if truthy_str b_ticker && truthy_str b_entryDate
    then
      match status with
      | closed =>
          (Some {| id := b_id; ticker := b_ticker; entryDate := b_entryDate;
                   entryPrice := b_entryPrice; shares := b_shares;
                   strategy := b_strategy; notes := b_notes; status := closed;
                   mindset := None; stopLoss := None; takeProfit := None;
                   exitDate := Some (str_or (row !! 8%nat) "");
                   exitPrice := Some (numberCell row 9);
                   chartImage := None;
                   pnl := Some (numberCell row 10);
                   isWin := Some (bool_decide (row !! 11%nat = Some "Win")) |},
           None)
      | open =>
          (Some {| id := b_id; ticker := b_ticker; entryDate := b_entryDate;
                   entryPrice := b_entryPrice; shares := b_shares;
                   strategy := b_strategy; notes := b_notes; status := open;
                   mindset := None; stopLoss := None; takeProfit := None;
                   exitDate := None; exitPrice := None; chartImage := None;
                   pnl := None; isWin := None |},
           None)
      end
    else (None, Some (SkippingMissingData (index + 2))).

(** [rows.forEach((row, index) => ...)], pushing to [trades] and logging. *)
Fixpoint forEachRow (index : nat) (rows : list (list string))
    (trades : list Trade) (log : list Log) : list Trade * list Log :=
  match rows with
  | [] => (trades, log)
  | row :: rows' =>
      let '(t, w) := parseRow index row in
      forEachRow (S index) rows'
        (trades ++ option_list t) (log ++ option_list w)
  end.

(** What the request for ['Trades!A2:L'] gives: it fails, or it answers with
    [values], which an empty sheet leaves [undefined]. *)
Inductive Response :=
| RequestFailed
| Result (values : option (list (list string))).

Inductive Failure :=
| NotSignedIn
| NoSpreadsheet
| RequestError.

Definition fetchTradesFromSheet (signedIn : bool) (spreadsheetId : option string)
    (response : Response) : Failure + list Trade * list Log :=
  if negb signedIn then inl NotSignedIn
  else if negb (truthy_str (str_or spreadsheetId "")) then inl NoSpreadsheet
  else match response with
       | RequestFailed => inl RequestError
       | Result values => inr (forEachRow 0 (default [] values) [] [])
       end.

(** [handleImportFromSheets], as the ledger sees it. *)
Definition importAction (confirmed signedIn : bool) (spreadsheetId : option string)
    (response : Response) : Ledger.Action :=
  Ledger.ImportFromSheets confirmed
    (match fetchTradesFromSheet signedIn spreadsheetId response with
     | inr (importedTrades, _) => Some importedTrades
     | inl _ => None
     end).

End WithPlatform.

(** *** Outbound: the rows [syncTradesToSheet] writes *)

(** A value written to a cell: a text or a number. *)
Inductive Cell :=
| Text (s : string)
| Number (q : Q).

(** [x || ''] for an optional number and for an optional string. *)
Definition numberOrEmpty (x : option Q) : Cell :=
  match x with
  | Some q => if Qeq_bool q 0 then Text "" else Number q
  | None => Text ""
  end.

Definition tradeHeader : list string :=
  ["ID"; "Ticker"; "Entry Date"; "Entry Price"; "Shares"; "Strategy"; "Notes";
   "Status"; "Exit Date"; "Exit Price"; "P/L"; "Result"].

(** One element of [tradeRows]. *)
Definition tradeRow (t : Trade) : list Cell :=
  [ Text (id t); Text (ticker t); Text (entryDate t); Number (entryPrice t);
    Number (shares t); Text (strategy t); Text (notes t);
    Text (Csv.statusString (status t));
    Text (str_or (exitDate t) ""); numberOrEmpty (exitPrice t);
    numberOrEmpty (pnl t);
    Text (match status t with
          | closed => if bool_decide (isWin t = Some true) then "Win" else "Loss"
          | open => ""
          end) ].

(** The values sent for the [Trades] sheet. *)
Definition tradeValues (trades : list Trade) : list (list Cell) :=
  (Text <$> tradeHeader) :: (tradeRow <$> trades).

End Sheets.

(** ** The broker ([brokerService]) *)

Module Broker.

Record BrokerCredentials := { apiKey : string; apiSecret : string }.

(** The ['broker_api_credentials'] entry of local storage, identified with
    the object its JSON text denotes; [None] is the entry being absent. *)
Definition saveBrokerCredentials (creds : BrokerCredentials)
    (entry : option BrokerCredentials) : option BrokerCredentials := Some creds.

Definition loadBrokerCredentials (entry : option BrokerCredentials)
  : option BrokerCredentials := entry.

Definition clearBrokerCredentials (entry : option BrokerCredentials)
  : option BrokerCredentials := None.

(** The guard of [handleImportFromBroker]:
    [!creds || !creds.apiKey || !creds.apiSecret] is false. *)
Definition hasCredentials (entry : option BrokerCredentials) : bool :=
  match loadBrokerCredentials entry with
  | Some creds => truthy_str (apiKey creds) && truthy_str (apiSecret creds)
  | None => false
  end.

(** The sample positions of the stand-in broker: a trade without [id],
    [pnl] and [isWin]. *)
Record Sample := {
  s_ticker : string;
  s_entryDate : string;
  s_entryPrice : Q;
  s_exitDate : string;
  s_exitPrice : Q;
  s_shares : Q;
  s_strategy : string;
  s_notes : string
}.

Definition sampleTrades : list Sample :=
  [ {| s_ticker := "AAPL"; s_entryDate := "2023-10-01"; s_entryPrice := 341 # 2;
       s_exitDate := "2023-10-15"; s_exitPrice := 891 # 5; s_shares := 50;
       s_strategy := "Breakout";
       s_notes := "Imported from broker: Breakout above previous high." |};
    {| s_ticker := "GOOGL"; s_entryDate := "2023-10-05"; s_entryPrice := 1351 # 10;
       s_exitDate := "2023-10-20"; s_exitPrice := 1339 # 10; s_shares := 30;
       s_strategy := "Mean Reversion";
       s_notes := "Imported from broker: Failed trade, stopped out." |} ].

(** The callback of the final [map]; [time] is [new Date().getTime()] as
    read for this element, a count of milliseconds. *)
Definition withResult (time : N) (index : nat) (trade : Sample) : Trade :=
  let pnl := compute_pnl (s_exitPrice trade) (s_entryPrice trade) (s_shares trade) in
  {| id := "broker-" +:+ pretty time +:+ "-" +:+ pretty index;
     ticker := s_ticker trade; entryDate := s_entryDate trade;
     entryPrice := s_entryPrice trade; shares := s_shares trade;
     strategy := s_strategy trade; notes := s_notes trade; status := closed;
     mindset := None; stopLoss := None; takeProfit := None;
     exitDate := Some (s_exitDate trade); exitPrice := Some (s_exitPrice trade);
     chartImage := None; pnl := Some pnl; isWin := Some (Qpos_b pnl) |}.

Definition fetchTradesFromBroker (clock : nat → N) : list Trade :=
  imap (λ index trade, withResult (clock index) index trade) sampleTrades.

(** [handleImportFromBroker], as the ledger sees it. *)
Definition importAction (entry : option BrokerCredentials) (confirmed : bool)
    (clock : option (nat → N)) : Ledger.Action :=
  Ledger.ImportFromBroker (hasCredentials entry) confirmed
    (fetchTradesFromBroker <$> clock).

End Broker.

(** ** Live prices ([getLivePrices] and the refresh of [JournalView]) *)

Module LivePrices.

(** What the request for prices comes to: the answer holds a JSON object,
    which is parsed; it holds none; or the request or the parsing throws. *)
Inductive Answer :=
| Parsed (prices : gmap string (option Q))
| NoJsonObject
| Threw.

(** The [reduce] of the error path: every requested ticker set to [null]. *)
Definition allNull (tickers : list string) : gmap string (option Q) :=
  foldl (λ acc ticker, <[ticker := None]> acc) ∅ tickers.

Definition getLivePrices (tickers : list string) (answer : Answer)
  : gmap string (option Q) :=
  match tickers with
  | [] => ∅
  | _ =>
      match answer with
      | Parsed prices => prices
      | NoJsonObject => ∅
      | Threw => allNull tickers
      end
  end.

(** [[...new Set(array)]]: the elements in the order of their first
    occurrence. *)
Definition unique (l : list string) : list string :=
  foldl (λ acc x, if decide (x ∈ acc) then acc else acc ++ [x]) [] l.

(** [fetchLivePrices]: the new value of [liveData]. *)
Definition fetchLivePrices (trades : list Trade) (answer : Answer)
  : gmap string (option Q) :=
  let tickers := unique (ticker <$> JournalView.openTrades trades) in
  match tickers with
  | [] => ∅
  | _ => getLivePrices tickers answer
  end.

End LivePrices.

(** ** The watchlist ([WatchlistView]) *)

Module Watchlist.

Record WatchlistItem := { id : string; ticker : string }.

(** The [watchlist] state variable and the ['swing-trade-watchlist'] entry
    of local storage. *)
Record View := { watchlist : list WatchlistItem; stored : option (list WatchlistItem) }.

Section WithNormalize.

(** [s.trim().toUpperCase()] *)
Variable trimUpper : string → string.

(** [handleAddItem]: the call to [setWatchlist] it makes, if the trimmed
    and upper-cased text is not empty and is the ticker of no item; [now] is
    [new Date().toISOString()]. *)
Definition handleAddItem (newItem now : string) (watchlist : list WatchlistItem)
  : option (list WatchlistItem → list WatchlistItem) :=
  let tk := trimUpper newItem in
  if truthy_str tk && negb (bool_decide (Exists (λ item, ticker item = tk) watchlist))
  then Some (λ prev, {| id := now; ticker := tk |} :: prev)
  else None.

Definition handleRemoveItem (itemId : string) (prev : list WatchlistItem)
  : list WatchlistItem :=
  filter (λ item, id item ≠ itemId) prev.

Inductive Action :=
| AddItem (newItem now : string)
| RemoveItem (itemId : string).

Definition handler (a : Action) (watchlist : list WatchlistItem)
  : option (list WatchlistItem → list WatchlistItem) :=
  match a with
  | AddItem newItem now => handleAddItem newItem now watchlist
  | RemoveItem itemId => Some (handleRemoveItem itemId)
  end.

(** The effect with dependency [[watchlist]]. *)
Definition persistEffect (v : View) : View :=
  {| watchlist := watchlist v; stored := Some (watchlist v) |}.

(** An operation and the commit that follows it. *)
Definition step (v : View) (a : Action) : View :=
  match handler a (watchlist v) with
  | Some upd => persistEffect {| watchlist := upd (watchlist v); stored := stored v |}
  | None => v
  end.

(** Mounting, as for the ledger: the list is read from the entry if it is
    there, and the entry ends up holding the list. *)
Definition mount (saved : option (list WatchlistItem)) : View :=
  let written := persistEffect {| watchlist := []; stored := saved |} in
  match saved with
  | Some savedWatchlist =>
      persistEffect {| watchlist := savedWatchlist; stored := stored written |}
  | None => written
  end.

Definition run (saved : option (list WatchlistItem)) (acts : list Action) : View :=
  foldl step (mount saved) acts.

End WithNormalize.

End Watchlist.

(** ** A session: the forms and the imports driving the ledger *)

Module Session.

(** What the user does.  [Edit] presses the edit button of the trade at a
    position of the list; an import carries the session state of the sheet
    client and the answer of the request. *)
Inductive UserOp :=
| LogNew (inputs : list TradeModal.Input) (today now : string)
| Edit (position : nat) (inputs : list TradeModal.Input) (today now : string)
| Exit (form : ExitTradeModal.State)
| Delete (tradeId : string) (confirmed : bool)
| ImportBroker (hasCreds confirmed : bool) (fetched : option (list Trade))
| ImportSheets (confirmed signedIn : bool) (spreadsheetId : option string)
    (response : Sheets.Response).

Section WithPlatform.

Variable parseFloat : string → option Q.
Variable sheetImportId : nat → string.

(** The ledger action an operation ends in, if it reaches the ledger. *)
Definition action (s : Ledger.App) (op : UserOp) : option Ledger.Action :=
  match op with
  | LogNew inputs today now =>
      Some (Ledger.SaveTrade (TradeModal.create parseFloat inputs today now))
  | Edit position inputs today now =>
      match Ledger.trades s !! position with
      | Some tradeToEdit =>
          Some (Ledger.SaveTrade (TradeModal.edit parseFloat tradeToEdit inputs today now))
      | None => None
      end
  | Exit form =>
      Ledger.SaveTrade <$>
        ExitTradeModal.handleSubmit form (ExitTradeModal.openTrades (Ledger.trades s))
  | Delete tradeId confirmed => Some (Ledger.DeleteTrade tradeId confirmed)
  | ImportBroker hasCreds confirmed fetched =>
      Some (Ledger.ImportFromBroker hasCreds confirmed fetched)
  | ImportSheets confirmed signedIn spreadsheetId response =>
      Some (Sheets.importAction parseFloat sheetImportId confirmed signedIn
              spreadsheetId response)
  end.

Definition perform (s : Ledger.App) (op : UserOp) : Ledger.App :=
  match action s op with
  | Some a => Ledger.step s a
  | None => s
  end.

Definition session (saved : option (list Trade)) (ops : list UserOp) : Ledger.App :=
  foldl perform (Ledger.mount saved) ops.

End WithPlatform.

End Session.

(** * The specification's side

    The claims that the code is compared with, and the notions they are
    stated in. *)

(** ** The claims about the forms, as the specification words them *)


(** An edit of the notes alone leaves the result of every closed trade of
    the ledger as it was. *)
Definition notes_edit_keeps_result (parseFloat : string → option Q)
    (sheetImportId : nat → string) : Prop :=
  ∀ saved ops t value today now,
    t ∈ Ledger.trades (Session.session parseFloat sheetImportId saved ops) →
    status t = closed →
    let t' := TradeModal.edit parseFloat t
                [TradeModal.Change TradeModal.f_notes value] today now in
    pnl t' = pnl t ∧ isWin t' = isWin t.

(** The stored result of a trade is the one its stored prices give: the
    state in which both forms leave a trade they close. *)
Definition closedByFormula (t : Trade) : Prop :=
  ∃ d x,
    exitDate t = Some d ∧ d ≠ "" ∧ exitPrice t = Some x ∧ (0 < x)%Q
    ∧ pnl t = Some (compute_pnl x (entryPrice t) (shares t))
    ∧ isWin t = Some (Qpos_b (compute_pnl x (entryPrice t) (shares t))).

(** ** The derived figures, as the specification words them *)



Definition Qsum (l : list Q) : Q := foldr Qplus 0%Q l.

(** The price a ticker is known to have: a number under its key. *)
Definition livePrice (liveData : gmap string (option Q)) (tk : string) : option Q :=
  match liveData !! tk with
  | Some (Some price) => Some price
  | _ => None
  end.

(** What one trade adds to the unrealized P/L: something only when it is
    open and its ticker has a known price. *)
Definition unrealizedGain (liveData : gmap string (option Q)) (t : Trade) : option Q :=
  match status t with
  | open => (λ price, (price - entryPrice t) * shares t)%Q <$> livePrice liveData (ticker t)
  | closed => None
  end.

Definition unrealizedPnl_spec (liveData : gmap string (option Q)) (trades : list Trade) : Q :=
  Qsum (omap (unrealizedGain liveData) trades).




(** ** The CSV round trip, as the specification words it *)

(** The character [c] occurs in [s]. *)
Fixpoint occurs (c : Ascii.ascii) (s : string) : bool :=
  match s with
  | EmptyString => false
  | String c' s' => bool_decide (c' = c) || occurs c s'
  end.

(** A notes field holding a comma and a newline comes back from the export
    as it went in. *)
Definition csv_notes_round_trip (numberToString : Q → string) : Prop :=
  ∀ t : Trade,
    occurs Csv.comma (notes t) = true → occurs newline (notes t) = true →
    Csv.parseRecord (Csv.csvRow numberToString t) !! Csv.notesColumn = Some (notes t).

(** What a reader finds in a cell. *)
Definition cellContent (numberToString : Q → string) (v : Csv.Value) : string :=
  match v with
  | Csv.VString value => Csv.newlinesToSpaces value
  | Csv.VNumber q => numberToString q
  | Csv.VBoolean b => if b then "true" else "false"
  | Csv.VUndefined => EmptyString
  end.

(** Text with neither a comma nor a quote, such as a printed number. *)
Definition plainText (s : string) : Prop :=
  occurs Csv.comma s = false ∧ occurs Csv.quote s = false.

(** A number cell prints as plain text; the other cells ask nothing. *)
Definition printsPlain (numberToString : Q → string) (v : Csv.Value) : Prop :=
  match v with
  | Csv.VNumber q => plainText (numberToString q)
  | _ => True
  end.

(** ** The import, as the specification words it *)

(** A row is rebuilt as closed only if its status cell says [closed] and
    its exit price and P/L cells are there. *)
Definition closed_only_if_explicit (parseFloat : string → option Q)
    (sheetImportId : nat → string) : Prop :=
  ∀ index row t,
    fst (Sheets.parseRow parseFloat sheetImportId index row) = Some t →
    status t = closed →
    row !! 7%nat = Some "closed" ∧ is_Some (row !! 9%nat) ∧ is_Some (row !! 10%nat).

(** The ticker or the entry date of a row is missing: the cell is not
    there or is empty. *)
Definition missingTickerOrDate (row : list string) : Prop :=
  str_or (row !! 1%nat) "" = "" ∨ str_or (row !! 2%nat) "" = "".

(** The rows the import keeps: four cells at least, a ticker and an entry
    date. *)
Definition hasEssentials (row : list string) : Prop :=
  (4 ≤ length row)%nat ∧ ¬ missingTickerOrDate row.

#[global] Instance missingTickerOrDate_dec row : Decision (missingTickerOrDate row).
Proof. unfold missingTickerOrDate. apply _. Defined.

#[global] Instance hasEssentials_dec row : Decision (hasEssentials row).
Proof. unfold hasEssentials. apply _. Defined.

(** * Examples

    The platform functions the model is parametric in are instantiated by
    small stand-ins, and the data below is what the examples run on. *)

(** ** Stand-ins for [parseFloat], [getTime] and the number printer

    It reads a leading run of decimal digits, as the platform's function
    does on such a string, and is [NaN] when there is none.  The theorems
    below hold for any [parseFloat]; the examples are run with this one. *)

Definition digit (c : Ascii.ascii) : option Z :=
  let n := Z.of_nat (Ascii.nat_of_ascii c) in
  if decide (48 ≤ n ≤ 57)%Z then Some (n - 48)%Z else None.

Fixpoint readDigits (acc : option Z) (s : string) : option Z :=
  match s with
  | EmptyString => acc
  | String c s' =>
      match digit c with
      | Some d => readDigits (Some (10 * default 0%Z acc + d)%Z) s'
      | None => acc
      end
  end.

Definition parseNatural (s : string) : option Q := inject_Z <$> readDigits None s.

(** A [getTime] for the examples: the digits of a [YYYY-MM-DD] date read as
    one number, which orders such dates as the calendar does; a string with
    no digit is an invalid date. *)
Fixpoint dateDigits (acc : option Z) (s : string) : option Z :=
  match s with
  | EmptyString => acc
  | String c s' =>
      match digit c with
      | Some d => dateDigits (Some (10 * default 0%Z acc + d)%Z) s'
      | None => dateDigits acc s'
      end
  end.

Definition dateNumber (s : string) : option Z := dateDigits None s.

(** A number printer for the examples: the integer part, in decimal. *)
Definition printInteger (q : Q) : string := pretty (Qnum q `div` Z.pos (Qden q))%Z.

Definition sampleImportId (index : nat) : string := "sheet-import-0-" +:+ pretty index.

(** ** Trades, forms and rows *)

(** An open position in AAPL. *)
Definition sampleTrade : Trade :=
  {| id := "2024-01-02T10:00:00.000Z"; ticker := "AAPL"; entryDate := "2024-01-02";
     entryPrice := 100; shares := 10; strategy := "Breakout"; notes := "";
     status := open; mindset := Some Neutral; stopLoss := Some 0%Q;
     takeProfit := Some 0%Q; exitDate := None; exitPrice := None;
     chartImage := None; pnl := None; isWin := None |}.

(** An open position in TSLA. *)
Definition tslaSample : Trade :=
  {| id := "2024-03-01T10:00:00.000Z"; ticker := "TSLA"; entryDate := "2024-03-01";
     entryPrice := 200; shares := 5; strategy := "Pullback"; notes := "";
     status := open; mindset := Some Confident; stopLoss := Some 0%Q;
     takeProfit := Some 0%Q; exitDate := None; exitPrice := None;
     chartImage := None; pnl := None; isWin := None |}.

(** The same position with a remark in quotes and a comma in its notes. *)
Definition quotedSample : Trade :=
  {| id := "2024-01-02T10:00:00.000Z"; ticker := "AAPL"; entryDate := "2024-01-02";
     entryPrice := 100; shares := 10; strategy := "Breakout";
     notes := "desk said " +:+ String Csv.quote "wait" +:+ String Csv.quote ", bought";
     status := open; mindset := Some Neutral; stopLoss := Some 0%Q;
     takeProfit := Some 0%Q; exitDate := None; exitPrice := None;
     chartImage := None; pnl := None; isWin := None |}.

(** The same position with notes on two lines. *)
Definition notedSample : Trade :=
  {| id := "2024-01-02T10:00:00.000Z"; ticker := "AAPL"; entryDate := "2024-01-02";
     entryPrice := 100; shares := 10; strategy := "Breakout";
     notes := "gap up, strong volume" +:+ LF +:+ "trimmed half";
     status := open; mindset := Some Neutral; stopLoss := Some 0%Q;
     takeProfit := Some 0%Q; exitDate := None; exitPrice := None;
     chartImage := None; pnl := None; isWin := None |}.

(** What is typed to log a position already closed. *)
Definition closedSample : list TradeModal.Input :=
  [TradeModal.Change TradeModal.f_ticker "AAPL";
   TradeModal.Change TradeModal.f_entryPrice "100";
   TradeModal.Change TradeModal.f_shares "10";
   TradeModal.Change TradeModal.f_exitDate "2024-01-09";
   TradeModal.Change TradeModal.f_exitPrice "110"].

(** A position logged as closed, and the same trade saved from the trade
    form with its exit date cleared. *)
Definition closedSampleTrade : Trade :=
  TradeModal.create parseNatural closedSample "2024-01-02" "2024-01-02T10:00:00.000Z".

Definition clearExitDate : list TradeModal.Input :=
  [TradeModal.Change TradeModal.f_exitDate ""].


(** A sheet row whose result cells disagree with its prices. *)
Definition inconsistentRow : list string :=
  ["7"; "AAPL"; "2024-01-02"; "100"; "10"; "Breakout"; "held a week"; "closed";
   "2024-01-09"; "110"; "50"; "Loss"].

(** The ledger after an import of one sheet row, and its trade. *)
Definition importedSample : list Session.UserOp :=
  [Session.ImportSheets true true (Some "sheet-1")
     (Sheets.Result (Some [inconsistentRow]))].

Definition importedSampleTrade : Trade :=
  {| id := "7"; ticker := "AAPL"; entryDate := "2024-01-02";
     entryPrice := inject_Z 100; shares := inject_Z 10; strategy := "Breakout";
     notes := "held a week"; status := closed;
     mindset := None; stopLoss := None; takeProfit := None;
     exitDate := Some "2024-01-09"; exitPrice := Some (inject_Z 110);
     chartImage := None; pnl := Some (inject_Z 50); isWin := Some false |}.

(** A ledger for the curve: two closed trades entered the same day, a later
    one placed first, and an open one. *)
Definition curveTrade (i d : string) (p : Z) : Trade :=
  {| id := i; ticker := "MSFT"; entryDate := d; entryPrice := 10; shares := 1;
     strategy := ""; notes := ""; status := closed; mindset := None;
     stopLoss := None; takeProfit := None; exitDate := Some d;
     exitPrice := Some (inject_Z (10 + p)); chartImage := None;
     pnl := Some (inject_Z p); isWin := Some (bool_decide (0 < p)%Z) |}.

Definition curveSample : list Trade :=
  [curveTrade "c" "2024-02-01" 30; curveTrade "a" "2024-01-05" 10;
   tslaSample; curveTrade "b" "2024-01-05" (-4)].

(** A row that stops after the entry price. *)
Definition shortRow : list string := ["8"; "NVDA"; "2024-02-10"; "450"].

(** Three rows, the second with no ticker. *)
Definition threeRows : list (list string) :=
  [ inconsistentRow;
    ["9"; ""; "2024-02-11"; "20"; "5"; "Pullback"; ""; "open"];
    ["10"; "AMD"; "2024-02-12"; "150"; "4"; "Breakout"; "flag"; "open"] ].

(** * Further notions

    Used to state what the rest of the code keeps or gives back. *)

(** No two trades of a ledger share an id. *)
Definition uniqueIds (l : list Trade) : Prop := NoDup (id <$> l).

(** A closed trade carries its exit and its result, an open trade carries
    neither. *)
Definition resultPresent (t : Trade) : Prop :=
  match status t with
  | closed => is_Some (exitDate t) ∧ is_Some (exitPrice t)
              ∧ is_Some (pnl t) ∧ is_Some (isWin t)
  | open => exitDate t = None ∧ exitPrice t = None ∧ pnl t = None ∧ isWin t = None
  end.

(** The broker imports of a session bring trades that satisfy [P]. *)
Definition brokerBrings (P : Trade → Prop) (op : Session.UserOp) : Prop :=
  match op with
  | Session.ImportBroker _ _ (Some fetched) => Forall P fetched
  | _ => True
  end.




(** The number of times [c] occurs in [s]. *)
Fixpoint countChar (c : Ascii.ascii) (s : string) : nat :=
  match s with
  | EmptyString => 0
  | String c' s' => (if decide (c' = c) then 1 else 0) + countChar c s'
  end.

(** No two items of a watchlist share a ticker. *)
Definition uniqueTickers (l : list Watchlist.WatchlistItem) : Prop :=
  NoDup (Watchlist.ticker <$> l).

(** A number cell prints on one line. *)
Definition printsOnOneLine (numberToString : Q → string) (v : Csv.Value) : Prop :=
  match v with
  | Csv.VNumber q => occurs newline (numberToString q) = false
  | _ => True
  end.

(** Reading a text line by line: [cur] is the line being read. *)
Fixpoint splitLines (cur : string) (s : string) : list string :=
  match s with
  | EmptyString => [cur]
  | String c s' =>
      if decide (c = newline) then cur :: splitLines EmptyString s'
      else splitLines (Csv.snoc cur c) s'
  end.



(** A closed trade stores the result its prices give. *)
Definition resultFollowsPrices (t : Trade) : Prop :=
  status t = closed → closedByFormula t.

(** The operations that keep results in line with prices: everything but an
    import from the sheet, the broker bringing trades that are in line. *)
Definition keepsResultsInLine (op : Session.UserOp) : Prop :=
  match op with
  | Session.ImportSheets _ _ _ _ => False
  | Session.ImportBroker _ _ (Some fetched) => Forall resultFollowsPrices fetched
  | _ => True
  end.
(** * Properties *)

(** ** The ledger and its persisted copy *)

Section LedgerFacts.

Import Ledger.








(** *** Saving *)

Lemma handleSaveTrade_found trade l i old :
  list_find (λ t, id t = id trade) l = Some (i, old) →
  handleSaveTrade trade l = <[i:=trade]> l.
Proof. intros H. unfold handleSaveTrade. by rewrite H. Qed.

Lemma handleSaveTrade_fresh trade l :
  list_find (λ t, id t = id trade) l = None →
  handleSaveTrade trade l = trade :: l.
Proof. intros H. unfold handleSaveTrade. by rewrite H. Qed.

(** C2, the claim as worded does not hold: saving a trade whose id is not in
    the ledger is no failure, the trade is added. *)
Lemma save_of_unknown_id_is_no_failure :
  update_spec sampleTrade [] = inl NotFoundError
  ∧ handleSaveTrade sampleTrade [] = [sampleTrade]
  ∧ inr (handleSaveTrade sampleTrade []) ≠ update_spec sampleTrade [].
Proof. split; [reflexivity|]. split; [reflexivity|]. discriminate. Qed.

(** C2, amended.  When some entry has the id of the saved trade, the first
    such entry is replaced where it stands: the length and every other
    position are unchanged.  When none has it, the trade is put at the head
    of the ledger. *)
Theorem save_replaces_in_place_or_prepends (trade : Trade) (l : list Trade) :
  (∃ (i : nat) old,
      l !! i = Some old ∧ id old = id trade
      ∧ (∀ (j : nat) y, l !! j = Some y → id y = id trade → (i ≤ j)%nat)
      ∧ length (handleSaveTrade trade l) = length l
      ∧ handleSaveTrade trade l !! i = Some trade
      ∧ ∀ j : nat, j ≠ i → handleSaveTrade trade l !! j = l !! j)
  ∨ ((∀ y, y ∈ l → id y ≠ id trade) ∧ handleSaveTrade trade l = trade :: l).
Proof.
  destruct (list_find (λ t, id t = id trade) l) as [[i old]|] eqn:Hfind.
  - left. exists i, old.
    apply list_find_Some in Hfind as (Hi & Hid & Hfirst).
    rewrite (handleSaveTrade_found trade l i old)
      by (apply list_find_Some; auto).
    split; [done|]. split; [done|].
    split.
    { intros j y Hj Hy. destruct (decide (i ≤ j)%nat) as [|Hlt]; [done|].
      exfalso. apply (Hfirst j y); [done | lia | done]. }
    split; [apply length_insert|].
    split; [apply list_lookup_insert_eq; by eapply lookup_lt_Some|].
    intros j Hne. by apply list_lookup_insert_ne.
  - right. split.
    + apply list_find_None in Hfind. rewrite Forall_forall in Hfind.
      intros y Hy. by apply Hfind.
    + by apply handleSaveTrade_fresh.
Qed.

End LedgerFacts.

(** ** The forms: status and result of a saved trade *)

Section FormFacts.

Lemma truthy_str_true s : truthy_str s = true ↔ s ≠ "".
Proof. unfold truthy_str. apply bool_decide_eq_true. Qed.

Lemma Qpos_b_true q : Qpos_b q = true ↔ (0 < q)%Q.
Proof.
  unfold Qpos_b. rewrite negb_true_iff. split.
  - intros H. apply Qnot_le_lt. intros Hle.
    apply Qle_bool_iff in Hle. congruence.
  - intros Hlt. destruct (Qle_bool q 0) eqn:E; [|done].
    apply Qle_bool_iff in E. exfalso. by apply (Qlt_not_le 0 q).
Qed.

Lemma truthy_num_pos q : (0 < q)%Q → truthy_num q = true.
Proof.
  intros Hlt. unfold truthy_num. rewrite negb_true_iff.
  destruct (Qeq_bool q 0) eqn:E; [|done].
  apply Qeq_bool_iff in E. rewrite E in Hlt. by apply Qlt_irrefl in Hlt.
Qed.

Lemma num_or_pos q d : (0 < q)%Q → num_or (Some q) d = q.
Proof.
  intros Hlt. unfold num_or.
  pose proof (truthy_num_pos q Hlt) as H. unfold truthy_num in H.
  apply negb_true_iff in H. by rewrite H.
Qed.


Lemma str_or_nonempty s d : s ≠ "" → str_or (Some s) d = s.
Proof. intros H. unfold str_or. by rewrite decide_False. Qed.

Lemma isClosing_true d :
  TradeModal.isClosing d = true ↔ Draft.exitDate d ≠ "" ∧ (0 < Draft.exitPrice d)%Q.
Proof.
  unfold TradeModal.isClosing. rewrite !andb_true_iff, truthy_str_true, Qpos_b_true.
  split; [tauto|]. intros [? ?]. split_and!; auto using truthy_num_pos.
Qed.

Lemma TradeModal_status st e now :
  status (TradeModal.handleSubmit st e now) = closed
  ↔ TradeModal.isClosing (TradeModal.trade st) = true.
Proof. simpl. destruct (TradeModal.isClosing _); split; congruence. Qed.

(** A trade the trade form saves as closed carries the result its prices
    give. *)
Lemma TradeModal_closes_by_formula st e now :
  status (TradeModal.handleSubmit st e now) = closed →
  closedByFormula (TradeModal.handleSubmit st e now).
Proof.
  intros H. apply TradeModal_status in H. pose proof H as Hc.
  apply isClosing_true in H as [Hd Hx].
  exists (Draft.exitDate (TradeModal.trade st)), (Draft.exitPrice (TradeModal.trade st)).
  simpl. rewrite Hc. split_and!; done.
Qed.

(** So does a trade the exit form saves. *)
Lemma ExitTradeModal_closes_by_formula st l t :
  ExitTradeModal.handleSubmit st l = Some t →
  status t = closed ∧ closedByFormula t.
Proof.
  unfold ExitTradeModal.handleSubmit.
  destruct (ExitTradeModal.selectedTrade st l) as [sel|]; [|done].
  destruct (_ && _) eqn:E; [|done]. intros [= <-].
  rewrite !andb_true_iff, truthy_str_true, Qpos_b_true in E.
  destruct E as [[Hd _] Hx]. split; [done|].
  exists (ExitTradeModal.exitDateInput st), (ExitTradeModal.exitPriceInput st).
  simpl. split_and!; done.
Qed.

Lemma selectedTrade_open st l sel :
  ExitTradeModal.selectedTrade st (ExitTradeModal.openTrades l) = Some sel →
  sel ∈ l ∧ status sel = open ∧ id sel = ExitTradeModal.selectedTradeId st.
Proof.
  unfold ExitTradeModal.selectedTrade, ExitTradeModal.openTrades.
  destruct (list_find _ _) as [[i x]|] eqn:E; [|done].
  intros [= <-]. apply list_find_Some in E as (Hi & Hid & _).
  apply list_elem_of_lookup_2 in Hi. apply list_elem_of_filter in Hi as [? ?]. auto.
Qed.

End FormFacts.

Section StatusFacts.



End StatusFacts.

Section ResultFacts.

(** C4, the claim as worded does not hold: the trade form drops the stored
    result when it opens and computes it anew on every save.  A closed trade
    imported from a sheet row whose P/L cell says 50 and whose result cell
    says Loss comes out of an edit of its notes with a P/L of 100 and as a
    win. *)
Lemma notes_edit_can_change_result :
  ¬ notes_edit_keeps_result parseNatural sampleImportId.
Proof.
  intros H.
  destruct (H None importedSample importedSampleTrade "held ten days"
              "2024-02-01" "2024-02-01T09:00:00.000Z") as [Hpnl _].
  - apply list_elem_of_singleton. reflexivity.
  - reflexivity.
  - vm_compute in Hpnl. discriminate Hpnl.
Qed.

(** C4, amended.  A save from the trade form computes [pnl] and [isWin]
    anew from the entry price, the exit price and the shares it holds.  For
    a trade whose stored result is the one those prices give, and whose exit
    date is filled and exit price positive (which is how both forms leave a
    trade they close), an edit of the notes alone stores the same [pnl] and
    [isWin] again, keeps the trade closed and changes the notes. *)
Theorem notes_edit_keeps_formula_result (parseFloat : string → option Q)
    (t : Trade) (value today now : string) :
  closedByFormula t →
  let t' := TradeModal.edit parseFloat t
              [TradeModal.Change TradeModal.f_notes value] today now in
  status t' = closed ∧ pnl t' = pnl t ∧ isWin t' = isWin t
  ∧ exitDate t' = exitDate t ∧ exitPrice t' = exitPrice t
  ∧ entryPrice t' = entryPrice t ∧ shares t' = shares t
  ∧ notes t' = value.
Proof.
  intros (d & x & Hd & Hne & Hx & Hpos & Hpnl & Hwin).
  assert (Hclosing :
    TradeModal.isClosing
      (TradeModal.trade
         (foldl (TradeModal.input parseFloat)
            (TradeModal.openForm (Some t) today)
            [TradeModal.Change TradeModal.f_notes value])) = true).
  { apply isClosing_true. simpl. rewrite Hd, Hx.
    rewrite str_or_nonempty, num_or_pos by done. done. }
  unfold TradeModal.edit, TradeModal.handleSubmit. cbv zeta.
  rewrite Hclosing. simpl.
  rewrite Hd, Hx, Hpnl, Hwin.
  rewrite str_or_nonempty, num_or_pos by done.
  split_and!; reflexivity.
Qed.

Lemma notes_edit_keeps_formula_result_witness :
  let t := closedSampleTrade in
  let t' := TradeModal.edit parseNatural t
              [TradeModal.Change TradeModal.f_notes "sold into strength"]
              "2024-02-01" "2024-02-01T09:00:00.000Z" in
  closedByFormula t
  ∧ status t' = closed ∧ pnl t' = pnl t ∧ isWin t' = isWin t
  ∧ exitDate t' = exitDate t ∧ exitPrice t' = exitPrice t
  ∧ entryPrice t' = entryPrice t ∧ shares t' = shares t
  ∧ notes t' = "sold into strength".
Proof.
  assert (H : closedByFormula closedSampleTrade).
  { exists "2024-01-09", (inject_Z 110).
    split; [reflexivity|]. split; [discriminate|]. split; [reflexivity|].
    split; [reflexivity|]. split; reflexivity. }
  split; [exact H|].
  apply (notes_edit_keeps_formula_result parseNatural closedSampleTrade
           "sold into strength" "2024-02-01" "2024-02-01T09:00:00.000Z" H).
Defined.

End ResultFacts.

(** ** Derived figures *)

Section AnalyticsFacts.

Import JournalView.




(** The scenario of the specification: one AAPL trade bought at 100, ten
    shares, closed at 110. *)
Example scenario_realized :
  (totalPnl [closedSampleTrade] == 100)%Q ∧ (winRate [closedSampleTrade] == 100)%Q.
Proof. split; reflexivity. Qed.

(** *** Unrealized P/L *)

Lemma unrealizedPnl_spec_cons liveData t l :
  unrealizedPnl_spec liveData (t :: l)
  = match unrealizedGain liveData t with
    | Some gain => (gain + unrealizedPnl_spec liveData l)%Q
    | None => unrealizedPnl_spec liveData l
    end.
Proof. unfold unrealizedPnl_spec. simpl. by destruct (unrealizedGain liveData t). Qed.

Lemma unrealized_fold liveData l acc :
  (foldl (λ acc trade,
            match liveData !! ticker trade with
            | Some (Some currentPrice) =>
                (acc + (currentPrice - entryPrice trade) * shares trade)%Q
            | _ => acc
            end) acc (openTrades l)
   == acc + unrealizedPnl_spec liveData l)%Q.
Proof.
  revert acc. induction l as [|t l IH]; intros acc.
  - unfold unrealizedPnl_spec. simpl. ring.
  - unfold openTrades in *. rewrite filter_cons, unrealizedPnl_spec_cons.
    unfold unrealizedGain, livePrice.
    destruct (status t) eqn:Hst.
    + rewrite decide_True by done. cbn [foldl].
      destruct (liveData !! ticker t) as [[price|]|];
        cbn [fmap option_fmap option_map]; rewrite IH; ring.
    + rewrite decide_False by congruence. apply IH.
Qed.

Lemma unrealized_empty_map l :
  totalUnrealizedPnl ∅ l = 0%Q.
Proof.
  unfold totalUnrealizedPnl.
  generalize (openTrades l) as o, 0%Q as acc.
  induction o as [|t o IH]; intros acc; [done|].
  simpl. rewrite lookup_empty. apply IH.
Qed.

(** C6. The unrealized P/L is the sum, over the open trades whose ticker
    has a numeric price in the map, of [(price - entryPrice) * shares]; an
    open trade whose ticker is no key of the map, or whose price is [null],
    adds nothing.  It is 0 when no trade is open and when the map is
    empty. *)
Theorem unrealizedPnl_sum (liveData : gmap string (option Q)) (trades : list Trade) :
  (totalUnrealizedPnl liveData trades == unrealizedPnl_spec liveData trades)%Q
  ∧ (∀ t, status t = open → livePrice liveData (ticker t) = None →
          totalUnrealizedPnl liveData (t :: trades) = totalUnrealizedPnl liveData trades)
  ∧ (openTrades trades = [] → totalUnrealizedPnl liveData trades = 0%Q)
  ∧ totalUnrealizedPnl ∅ trades = 0%Q.
Proof.
  split_and!.
  - unfold totalUnrealizedPnl. rewrite unrealized_fold. ring.
  - intros t Hopen Hprice. unfold totalUnrealizedPnl, openTrades.
    rewrite filter_cons_True by done. simpl.
    unfold livePrice in Hprice.
    by destruct (liveData !! ticker t) as [[price|]|].
  - intros Hnone. unfold totalUnrealizedPnl. by rewrite Hnone.
  - apply unrealized_empty_map.
Qed.

Lemma unrealizedPnl_sum_witness :
  let liveData : gmap string (option Q) := {[ "TSLA" := Some 220%Q ]} in
  (totalUnrealizedPnl liveData [tslaSample; closedSampleTrade] == 100)%Q
  ∧ totalUnrealizedPnl ∅ [tslaSample; closedSampleTrade] = 0%Q
  ∧ (status sampleTrade = open ∧ livePrice liveData (ticker sampleTrade) = None
     ∧ totalUnrealizedPnl liveData [sampleTrade; tslaSample]
       = totalUnrealizedPnl liveData [tslaSample])
  ∧ (openTrades [closedSampleTrade] = []
     ∧ totalUnrealizedPnl liveData [closedSampleTrade] = 0%Q).
Proof.
  pose (liveData := ({[ "TSLA" := Some 220%Q ]} : gmap string (option Q))).
  pose proof (unrealizedPnl_sum liveData [tslaSample; closedSampleTrade]) as (H1 & _ & _ & H4).
  split.
  { cbv zeta. fold liveData. rewrite H1. vm_compute. reflexivity. }
  split; [exact H4|].
  split.
  { assert (Ho : status sampleTrade = open) by reflexivity.
    assert (Hp : livePrice liveData (ticker sampleTrade) = None) by reflexivity.
    split; [exact Ho|]. split; [exact Hp|].
    exact (proj1 (proj2 (unrealizedPnl_sum liveData [tslaSample])) sampleTrade Ho Hp). }
  assert (He : openTrades [closedSampleTrade] = []) by reflexivity.
  split; [exact He|].
  exact (proj1 (proj2 (proj2 (unrealizedPnl_sum liveData [closedSampleTrade]))) He).
Defined.

End AnalyticsFacts.

(** ** The equity curve *)

Section CurveFacts.

Import JournalView.

Variable getTime : string → option Z.

Local Abbreviation entryTime t := (getTime (entryDate t)).










(** *** The running sum *)







End CurveFacts.

Section CurveExamples.

Import JournalView.


Example chartData_names :
  (name <$> chartData dateNumber curveSample) = ["Trade 1"; "Trade 2"; "Trade 3"].
Proof. reflexivity. Qed.

(** With a date that does not parse the comparator answers [NaN] and is no
    order any more; the result need not ascend. *)
Example sort_with_invalid_date :
  (entryDate <$> sort dateNumber
     [curveTrade "x" "2024-02-01" 1; curveTrade "y" "n/a" 1; curveTrade "z" "2024-01-01" 1])
  = ["2024-02-01"; "n/a"; "2024-01-01"].
Proof. reflexivity. Qed.

End CurveExamples.

(** ** CSV export *)

Section CsvFacts.

Import Csv.

Lemma append_cons c s1 s2 : String c s1 +:+ s2 = String c (s1 +:+ s2).
Proof. reflexivity. Qed.

Lemma append_nil_l s : EmptyString +:+ s = s.
Proof. reflexivity. Qed.

Lemma append_nil_r s : s +:+ EmptyString = s.
Proof. induction s as [|c s IH]; [done | rewrite append_cons; by f_equal]. Qed.

Lemma append_assoc s1 s2 s3 : (s1 +:+ s2) +:+ s3 = s1 +:+ s2 +:+ s3.
Proof. induction s1 as [|c s1 IH]; [done | rewrite !append_cons; by f_equal]. Qed.

Lemma snoc_append field c s : snoc field c +:+ s = field +:+ String c s.
Proof. unfold snoc. by rewrite append_assoc. Qed.

(** Inside the quotes the reader undoes the doubling; the newlines the
    export flattened stay flattened. *)
Lemma read_quoted s field read rest :
  readRecord InQuotes field read
    (newlinesToSpaces (doubleQuotes s) +:+ String quote rest)
  = readRecord AfterQuote (field +:+ newlinesToSpaces s) read rest.
Proof.
  revert field. induction s as [|c s IH]; intros field.
  - cbn [doubleQuotes newlinesToSpaces]. rewrite append_nil_l, append_nil_r.
    cbn [readRecord]. by rewrite decide_True.
  - cbn [doubleQuotes]. destruct (decide (c = quote)) as [->|Hq].
    + cbn [newlinesToSpaces]. rewrite !decide_False by discriminate.
      rewrite !append_cons. cbn [readRecord]. rewrite !decide_True by done.
      rewrite IH. by rewrite snoc_append.
    + cbn [newlinesToSpaces]. rewrite append_cons. cbn [readRecord].
      destruct (decide (c = newline)) as [->|Hn].
      * rewrite decide_False by discriminate. rewrite IH. by rewrite snoc_append.
      * rewrite decide_False by done. rewrite IH. by rewrite snoc_append.
Qed.

Lemma occurs_cons_false c c' s :
  occurs c (String c' s) = false ↔ c' ≠ c ∧ occurs c s = false.
Proof.
  simpl. rewrite orb_false_iff, bool_decide_eq_false. tauto.
Qed.

Lemma read_plain p field read rest :
  occurs comma p = false →
  readRecord Plain field read (p +:+ rest) = readRecord Plain (field +:+ p) read rest.
Proof.
  revert field. induction p as [|c p IH]; intros field Hp.
  - by rewrite append_nil_l, append_nil_r.
  - apply occurs_cons_false in Hp as [Hc Hp].
    rewrite append_cons. cbn [readRecord]. rewrite decide_False by done.
    rewrite IH by done. by rewrite snoc_append.
Qed.

(** At the start of a field, plain text followed by a comma or by the end
    of the record reads as it does inside a field. *)
Lemma read_plain_start p read rest :
  plainText p → (rest = EmptyString ∨ ∃ rest', rest = String comma rest') →
  readRecord AtStart EmptyString read (p +:+ rest) = readRecord Plain p read rest.
Proof.
  intros [Hc Hq] Hrest. destruct p as [|c p].
  - destruct Hrest as [->|[rest' ->]]; [done|].
    rewrite append_nil_l. cbn [readRecord].
    rewrite decide_False by discriminate. by rewrite !decide_True.
  - apply occurs_cons_false in Hc as [Hc Hp].
    apply occurs_cons_false in Hq as [Hq _].
    rewrite append_cons. cbn [readRecord]. rewrite !decide_False by done.
    rewrite read_plain by done. by rewrite snoc_append, append_nil_l.
Qed.

Section WithNumberToString.

Variable numberToString : Q → string.

Lemma cellText_plain v :
  printsPlain numberToString v → (∀ s, v ≠ VString s) →
  cellText numberToString v = cellContent numberToString v
  ∧ plainText (cellText numberToString v).
Proof.
  intros Hp Hv. destruct v as [s|q|[]|]; simpl.
  - by destruct (Hv s).
  - by split.
  - by split.
  - by split.
  - by split.
Qed.

(** One cell, followed by the end of the record or by a comma. *)
Lemma read_cell_last v read :
  printsPlain numberToString v →
  readRecord AtStart EmptyString read (cellText numberToString v)
  = read ++ [cellContent numberToString v].
Proof.
  intros Hv. destruct v as [s|q|b|].
  - cbn [cellText]. rewrite append_cons. cbn [readRecord].
    rewrite decide_True by done. rewrite read_quoted. done.
  - destruct (cellText_plain (VNumber q)) as [<- Hp]; [done..|].
    rewrite <- (append_nil_r (cellText _ _)) at 1.
    rewrite read_plain_start by auto. done.
  - destruct (cellText_plain (VBoolean b)) as [<- Hp]; [done..|].
    rewrite <- (append_nil_r (cellText _ _)) at 1.
    rewrite read_plain_start by auto. done.
  - done.
Qed.

Lemma read_cell_comma v read rest :
  printsPlain numberToString v →
  readRecord AtStart EmptyString read (cellText numberToString v +:+ String comma rest)
  = readRecord AtStart EmptyString (read ++ [cellContent numberToString v]) rest.
Proof.
  intros Hv. destruct v as [s|q|b|].
  - cbn [cellText]. rewrite append_assoc, !append_cons, append_nil_l.
    cbn [readRecord]. rewrite decide_True by done.
    rewrite read_quoted. cbn [readRecord].
    rewrite decide_False by discriminate. by rewrite decide_True.
  - destruct (cellText_plain (VNumber q)) as [<- Hp]; [done..|].
    rewrite read_plain_start by eauto.
    cbn [readRecord]. by rewrite decide_True.
  - destruct (cellText_plain (VBoolean b)) as [<- Hp]; [done..|].
    rewrite read_plain_start by eauto.
    cbn [readRecord]. by rewrite decide_True.
  - cbn [cellText]. rewrite append_nil_l. cbn [readRecord].
    rewrite decide_False by discriminate. by rewrite decide_True.
Qed.

Lemma read_cells vs read :
  vs ≠ [] → Forall (printsPlain numberToString) vs →
  readRecord AtStart EmptyString read
    (join (String comma EmptyString) (cellText numberToString <$> vs))
  = read ++ (cellContent numberToString <$> vs).
Proof.
  revert read. induction vs as [|v vs IH]; intros read Hne Hvs; [done|].
  apply Forall_cons in Hvs as [Hv Hvs].
  destruct vs as [|v' vs].
  - by apply read_cell_last.
  - change (join (String comma EmptyString) (cellText numberToString <$> v :: v' :: vs))
      with (cellText numberToString v
            +:+ String comma (join (String comma EmptyString)
                                (cellText numberToString <$> v' :: vs))).
    rewrite read_cell_comma, IH by done.
    by rewrite <- app_assoc.
Qed.

Lemma parseRecord_csvRow trade :
  Forall (printsPlain numberToString) (get trade <$> header) →
  parseRecord (csvRow numberToString trade)
  = cellContent numberToString ∘ get trade <$> header.
Proof.
  intros Hp. unfold parseRecord, csvRow.
  rewrite (list_fmap_compose (get trade) (cellText numberToString)).
  rewrite read_cells by done.
  by rewrite (list_fmap_compose (get trade) (cellContent numberToString)).
Qed.

End WithNumberToString.

Lemma newlinesToSpaces_id s : occurs newline s = false → newlinesToSpaces s = s.
Proof.
  induction s as [|c s IH]; [done|]. intros H.
  apply occurs_cons_false in H as [Hc Hs].
  cbn [newlinesToSpaces]. rewrite decide_False by done. by rewrite IH.
Qed.

(** C8, the claim as worded does not hold: the export turns every newline
    of a string field into a space, so notes with a comma and a newline
    come back with the newline lost. *)
Lemma csv_newline_is_lost : ¬ csv_notes_round_trip printInteger.
Proof.
  intros H. specialize (H notedSample eq_refl eq_refl).
  vm_compute in H. discriminate H.
Qed.

(** C8, amended.  The export wraps a string field in quotes, doubles the
    quotes inside it and turns every newline into a space.  Read back, the
    notes field is the notes with every newline turned into a space: the
    notes themselves, commas and quotes included, exactly when they hold no
    newline. *)
Theorem csv_notes_read_back (numberToString : Q → string) (t : Trade) :
  Forall (printsPlain numberToString) (get t <$> header) →
  cellText numberToString (get t c_notes)
  = String quote (newlinesToSpaces (doubleQuotes (notes t))) +:+ String quote EmptyString
  ∧ parseRecord (csvRow numberToString t) !! notesColumn
    = Some (newlinesToSpaces (notes t))
  ∧ (occurs newline (notes t) = false →
     parseRecord (csvRow numberToString t) !! notesColumn = Some (notes t)).
Proof.
  intros Hp. split; [reflexivity|].
  assert (Hread : parseRecord (csvRow numberToString t) !! notesColumn
                  = Some (newlinesToSpaces (notes t))).
  { by rewrite parseRecord_csvRow. }
  split; [exact Hread|].
  intros Hn. by rewrite Hread, newlinesToSpaces_id.
Qed.

(** Quotes and commas in the notes survive the trip. *)
Example csv_quotes_and_commas :
  cellText printInteger (get quotedSample c_notes)
  = String quote ("desk said " +:+ String quote (String quote "wait")
                  +:+ String quote (String quote ", bought"))
    +:+ String quote EmptyString
  ∧ parseRecord (csvRow printInteger quotedSample)
    = ["2024-01-02T10:00:00.000Z"; "AAPL"; "open"; "2024-01-02"; "100"; ""; ""; "10";
       "Breakout"; notes quotedSample; ""; ""].
Proof. split; reflexivity. Qed.

Lemma csv_notes_read_back_witness :
  Forall (printsPlain printInteger) (get notedSample <$> header)
  ∧ parseRecord (csvRow printInteger notedSample) !! notesColumn
    = Some "gap up, strong volume trimmed half"
  ∧ occurs newline (notes sampleTrade) = false
  ∧ parseRecord (csvRow printInteger sampleTrade) !! notesColumn
    = Some (notes sampleTrade).
Proof.
  assert (Hnoted : Forall (printsPlain printInteger) (get notedSample <$> header)).
  { repeat (constructor; [first [exact I | split; reflexivity]|]). constructor. }
  assert (Hsample : Forall (printsPlain printInteger) (get sampleTrade <$> header)).
  { repeat (constructor; [first [exact I | split; reflexivity]|]). constructor. }
  split; [exact Hnoted|].
  split; [exact (proj1 (proj2 (csv_notes_read_back printInteger notedSample Hnoted)))|].
  split; [reflexivity|].
  exact (proj2 (proj2 (csv_notes_read_back printInteger sampleTrade Hsample)) eq_refl).
Defined.

End CsvFacts.

(** ** Import from the spreadsheet *)

Section SheetFacts.

Import Sheets.

Variable parseFloat : string → option Q.
Variable sheetImportId : nat → string.

Local Abbreviation parseRow := (Sheets.parseRow parseFloat sheetImportId).
Local Abbreviation forEachRow := (Sheets.forEachRow parseFloat sheetImportId).

Lemma essentials_truthy row :
  truthy_str (str_or (row !! 1%nat) "") && truthy_str (str_or (row !! 2%nat) "") = true
  ↔ ¬ missingTickerOrDate row.
Proof.
  rewrite andb_true_iff, !truthy_str_true. unfold missingTickerOrDate. tauto.
Qed.

(** A row with its essentials gives a trade and no warning. *)
Lemma parseRow_kept index row :
  hasEssentials row →
  ∃ t, parseRow index row = (Some t, None)
       ∧ ticker t = str_or (row !! 1%nat) "" ∧ entryDate t = str_or (row !! 2%nat) ""
       ∧ (status t = open ↔ row !! 7%nat = Some "open").
Proof.
  intros [Hlen Hess]. apply essentials_truthy in Hess.
  unfold Sheets.parseRow. rewrite decide_False by lia. rewrite Hess.
  destruct (decide (row !! 7%nat = Some "open")) as [Hopen|Hopen];
    eexists; (split; [reflexivity|]); simpl; split_and!; try done.
Qed.

(** Any other row gives no trade and one warning, numbered as the sheet
    numbers its rows. *)
Lemma parseRow_skipped index row :
  ¬ hasEssentials row →
  parseRow index row = (None, Some (SkippingMalformedRow (index + 2)))
  ∨ parseRow index row = (None, Some (SkippingMissingData (index + 2))).
Proof.
  intros Hno. unfold Sheets.parseRow.
  destruct (decide (length row < 4)%nat) as [Hlen|Hlen]; [by left|]. right.
  destruct (_ && _) eqn:E; [|done].
  apply essentials_truthy in E. destruct Hno. split; [lia | done].
Qed.

Lemma forEachRow_lengths rows index trades log :
  let r := forEachRow index rows trades log in
  length (fst r) = (length trades + length (filter hasEssentials rows))%nat
  ∧ length (snd r) = (length log + length (filter (λ row, ¬ hasEssentials row) rows))%nat.
Proof.
  revert index trades log. induction rows as [|row rows IH]; intros index trades log.
  - simpl. lia.
  - cbn [Sheets.forEachRow]. rewrite !filter_cons.
    destruct (decide (hasEssentials row)) as [Hrow|Hrow].
    + destruct (parseRow_kept index row Hrow) as (t & -> & _).
      rewrite decide_False by tauto.
      destruct (IH (S index) (trades ++ option_list (Some t)) (log ++ option_list None))
        as [H1 H2].
      cbv zeta. rewrite H1, H2, !length_app. simpl. lia.
    + rewrite decide_True by done.
      destruct (parseRow_skipped index row Hrow) as [-> | ->];
        match goal with
        | |- context [option_list (Some ?w)] =>
            destruct (IH (S index) (trades ++ option_list None) (log ++ option_list (Some w)))
              as [H1 H2]
        end;
        cbv zeta; rewrite H1, H2, !length_app; simpl; lia.
Qed.

Lemma forEachRow_trades rows index trades log :
  fst (forEachRow index rows trades log)
  = trades ++ mjoin (imap (λ i row, option_list (fst (parseRow (index + i) row))) rows).
Proof.
  revert index trades log. induction rows as [|row rows IH]; intros index trades log.
  - simpl. by rewrite app_nil_r.
  - cbn [Sheets.forEachRow]. destruct (parseRow index row) as [t w] eqn:E.
    rewrite IH, imap_cons. cbn [mjoin list_join]. rewrite Nat.add_0_r, E.
    cbn [fst]. rewrite <- app_assoc. do 3 f_equal.
    apply imap_ext. intros i r _. simpl. by rewrite Nat.add_succ_r.
Qed.

(** C9, amended.  A row the import keeps is open exactly when its status
    cell reads [open]; with any other status cell, or none, it is closed,
    and then its exit date, exit price, P/L and result are read from the
    row, an exit price or a P/L cell that is not there counting as 0. *)
Theorem sheet_status_defaults_to_closed (index : nat) (row : list string) (t : Trade) :
  fst (parseRow index row) = Some t →
  (status t = open ↔ row !! 7%nat = Some "open")
  ∧ (status t = closed ↔ row !! 7%nat ≠ Some "open")
  ∧ (status t = closed →
     exitDate t = Some (str_or (row !! 8%nat) "")
     ∧ exitPrice t = Some (numberCell parseFloat row 9)
     ∧ pnl t = Some (numberCell parseFloat row 10)
     ∧ isWin t = Some (bool_decide (row !! 11%nat = Some "Win")))
  ∧ (row !! 9%nat = None → numberCell parseFloat row 9 = 0%Q)
  ∧ (row !! 10%nat = None → numberCell parseFloat row 10 = 0%Q)
  ∧ (status t = open →
     exitDate t = None ∧ exitPrice t = None ∧ pnl t = None ∧ isWin t = None).
Proof.
  unfold Sheets.parseRow.
  destruct (decide (length row < 4)%nat); [done|].
  destruct (_ && _); [|done].
  destruct (decide (row !! 7%nat = Some "open")) as [Hopen|Hopen];
    intros [= <-]; simpl.
  all: split_and!; try done;
    try (unfold numberCell; intros ->; reflexivity); naive_solver.
Qed.

(** C10. Once the sheet is reached, the import does not fail on a bad
    row: a row with no ticker or no entry date gives no trade and one
    warning, the rows with a ticker, an entry date and four cells give the
    trades, in the order of the sheet, and these replace the ledger. *)
Theorem import_skips_bad_rows (rows : list (list string)) (sheet : string)
    (s : Ledger.App) :
  sheet ≠ "" →
  ∃ trades log,
    fetchTradesFromSheet parseFloat sheetImportId true (Some sheet) (Result (Some rows))
    = inr (trades, log)
    ∧ trades = mjoin (imap (λ i row, option_list (fst (parseRow i row))) rows)
    ∧ length trades = length (filter hasEssentials rows)
    ∧ (length trades + length log = length rows)%nat
    ∧ (∀ index row, missingTickerOrDate row →
         ∃ w, parseRow index row = (None, Some w))
    ∧ Ledger.trades
        (Ledger.step s
           (importAction parseFloat sheetImportId true true (Some sheet)
              (Result (Some rows))))
      = trades.
Proof.
  intros Hsheet.
  assert (Hfetch :
    fetchTradesFromSheet parseFloat sheetImportId true (Some sheet) (Result (Some rows))
    = inr (forEachRow 0 rows [] [])).
  { unfold fetchTradesFromSheet. rewrite str_or_nonempty by done.
    by rewrite (proj2 (truthy_str_true sheet)). }
  destruct (forEachRow 0 rows [] []) as [trades log] eqn:E.
  exists trades, log.
  pose proof (forEachRow_lengths rows 0 [] []) as [Ht Hl].
  pose proof (forEachRow_trades rows 0 [] []) as Hts.
  rewrite E in Ht, Hl, Hts. simpl in Ht, Hl, Hts.
  split; [exact Hfetch|]. split; [exact Hts|]. split; [exact Ht|].
  split.
  { rewrite Ht, Hl. rewrite <- length_app.
    apply Permutation_length, filter_app_complement. }
  split.
  { intros index row Hmiss.
    destruct (parseRow_skipped index row) as [-> | ->]; [|eauto..].
    intros [_ Hno]. by apply Hno. }
  unfold importAction. rewrite Hfetch. reflexivity.
Qed.

End SheetFacts.

Section SheetExamples.

Import Sheets.

(** C9, the claim as worded does not hold: a row with a ticker and an
    entry date that stops after the entry price has no status cell, no
    exit price and no P/L, and is rebuilt as a closed trade. *)
Lemma row_without_status_is_closed :
  ¬ closed_only_if_explicit parseNatural sampleImportId.
Proof.
  intros H.
  destruct (H 0%nat shortRow
              {| id := "8"; ticker := "NVDA"; entryDate := "2024-02-10";
                 entryPrice := inject_Z 450; shares := 0; strategy := "";
                 notes := ""; status := closed; mindset := None;
                 stopLoss := None; takeProfit := None; exitDate := Some "";
                 exitPrice := Some 0%Q; chartImage := None; pnl := Some 0%Q;
                 isWin := Some false |} eq_refl eq_refl) as [Hstatus _].
  discriminate Hstatus.
Qed.

Lemma sheet_status_defaults_to_closed_witness :
  ∃ t, fst (parseRow parseNatural sampleImportId 0 shortRow) = Some t
       ∧ status t = closed ∧ shortRow !! 7%nat = None
       ∧ exitPrice t = Some 0%Q ∧ pnl t = Some 0%Q ∧ isWin t = Some false.
Proof.
  eexists. split; [reflexivity|].
  pose proof (sheet_status_defaults_to_closed parseNatural sampleImportId 0 shortRow _
                eq_refl) as (_ & Hclosed & Hfields & _).
  assert (Hc : status (default sampleTrade
                         (fst (parseRow parseNatural sampleImportId 0 shortRow))) = closed).
  { apply Hclosed. discriminate. }
  destruct (Hfields Hc) as (_ & Hx & Hp & Hw).
  split; [exact Hc|]. split; [reflexivity|].
  split; [exact Hx|]. split; [exact Hp | exact Hw].
Defined.

Lemma import_skips_bad_rows_witness :
  ∃ trades log,
    fetchTradesFromSheet parseNatural sampleImportId true (Some "sheet-1")
      (Result (Some threeRows)) = inr (trades, log)
    ∧ length threeRows = 3%nat
    ∧ length trades = 2%nat
    ∧ (ticker <$> trades) = ["AAPL"; "AMD"]
    ∧ log = [SkippingMissingData 3]
    ∧ Ledger.trades
        (Ledger.step (Ledger.mount None)
           (importAction parseNatural sampleImportId true true (Some "sheet-1")
              (Result (Some threeRows))))
      = trades.
Proof.
  assert (Hsheet : "sheet-1" ≠ "") by discriminate.
  destruct (import_skips_bad_rows parseNatural sampleImportId threeRows "sheet-1"
              (Ledger.mount None) Hsheet)
    as (trades & log & Hfetch & Htrades & Hlen & Hsum & _ & Hledger).
  exists trades, log.
  split; [exact Hfetch|]. split; [reflexivity|].
  split; [rewrite Hlen; reflexivity|].
  split; [rewrite Htrades; reflexivity|].
  split; [|exact Hledger].
  vm_compute in Hfetch. by injection Hfetch as _ <-.
Defined.

End SheetExamples.

(** * More of the code *)

(** ** The ledger: ids, deletion, reload *)

Section LedgerMore.

Import Ledger.

Lemma save_ids trade l :
  (id <$> handleSaveTrade trade l) = (id <$> l)
  ∨ ((id trade ∉ (id <$> l)) ∧ handleSaveTrade trade l = trade :: l).
Proof.
  destruct (list_find (λ t, id t = id trade) l) as [[i old]|] eqn:Hfind.
  - left. rewrite (handleSaveTrade_found trade l i old Hfind).
    apply list_find_Some in Hfind as (Hi & Hid & _).
    rewrite list_fmap_insert. apply list_insert_id.
    rewrite list_lookup_fmap, Hi. simpl. by rewrite Hid.
  - right. split; [|by apply handleSaveTrade_fresh].
    apply list_find_None in Hfind. rewrite Forall_forall in Hfind.
    intros (y & Hy & Hin)%list_elem_of_fmap. by apply (Hfind y).
Qed.

(** X1. A ledger whose ids are all different keeps them different through
    every save and every deletion: a save replaces the entry that has the id
    or adds one whose id is new, a deletion only removes. *)
Theorem saves_and_deletions_keep_ids_unique (trade : Trade) (tradeId : string)
    (l : list Trade) :
  uniqueIds l →
  uniqueIds (handleSaveTrade trade l) ∧ uniqueIds (handleDeleteTrade tradeId l).
Proof.
  unfold uniqueIds. intros Hl. split.
  - destruct (save_ids trade l) as [-> | [Hnew ->]]; [done|].
    simpl. by apply NoDup_cons.
  - eapply sublist_NoDup; [exact Hl|].
    apply fmap_sublist, sublist_filter.
Qed.

Lemma saves_and_deletions_keep_ids_unique_witness :
  uniqueIds [tslaSample; sampleTrade]
  ∧ uniqueIds (handleSaveTrade closedSampleTrade [tslaSample; sampleTrade])
  ∧ uniqueIds (handleDeleteTrade (id tslaSample) [tslaSample; sampleTrade]).
Proof.
  assert (H : uniqueIds [tslaSample; sampleTrade]).
  { unfold uniqueIds. simpl. apply NoDup_cons. split.
    - intros Hin. apply list_elem_of_singleton in Hin. discriminate Hin.
    - apply NoDup_singleton. }
  split; [exact H|].
  exact (saves_and_deletions_keep_ids_unique closedSampleTrade (id tslaSample) _ H).
Defined.

(** X2. Saving the same trade twice is the same as saving it once: the
    second save finds the first and overwrites it with itself. *)
Theorem save_is_idempotent (trade : Trade) (l : list Trade) :
  handleSaveTrade trade (handleSaveTrade trade l) = handleSaveTrade trade l.
Proof.
  destruct (list_find (λ t, id t = id trade) l) as [[i old]|] eqn:Hfind.
  - rewrite (handleSaveTrade_found trade l i old Hfind).
    apply list_find_Some in Hfind as (Hi & Hid & Hfirst).
    assert (Hlt : (i < length l)%nat) by by eapply lookup_lt_Some.
    rewrite (handleSaveTrade_found trade (<[i:=trade]> l) i trade).
    + apply list_insert_insert_eq.
    + apply list_find_Some. split; [by apply list_lookup_insert_eq|].
      split; [done|]. intros j y Hj Hji.
      rewrite list_lookup_insert_ne in Hj by lia. by apply (Hfirst j y).
  - rewrite (handleSaveTrade_fresh trade l Hfind).
    rewrite (handleSaveTrade_found trade (trade :: l) 0 trade); [done|].
    apply list_find_Some. split; [done|]. split; [done|]. intros j y _ Hj. lia.
Qed.

Lemma delete_absent tradeId l :
  (∀ y, y ∈ l → id y ≠ tradeId) → handleDeleteTrade tradeId l = l.
Proof.
  intros Habs. unfold handleDeleteTrade.
  induction l as [|x l IH]; [done|].
  rewrite filter_cons_True by (apply Habs; left).
  f_equal. apply IH. intros y Hy. apply Habs. by right.
Qed.

(** X3. Deleting an id that no trade has changes nothing, and deleting a
    trade that was just added under a new id gives the ledger back. *)
Theorem delete_undoes_new_save (trade : Trade) (l : list Trade) :
  (∀ y, y ∈ l → id y ≠ id trade) →
  handleDeleteTrade (id trade) l = l
  ∧ handleDeleteTrade (id trade) (handleSaveTrade trade l) = l.
Proof.
  intros Habs. split; [by apply delete_absent|].
  rewrite handleSaveTrade_fresh.
  - unfold handleDeleteTrade. rewrite filter_cons_False by (intros H; by apply H).
    by apply delete_absent.
  - apply list_find_None, Forall_forall. exact Habs.
Qed.

Lemma delete_undoes_new_save_witness :
  handleDeleteTrade (id sampleTrade) [tslaSample] = [tslaSample]
  ∧ handleDeleteTrade (id sampleTrade) (handleSaveTrade sampleTrade [tslaSample])
    = [tslaSample].
Proof.
  apply (delete_undoes_new_save sampleTrade [tslaSample]).
  intros y Hy. apply list_elem_of_singleton in Hy. subst y. discriminate.
Defined.


End LedgerMore.

(** ** The forms on the ledger *)

Section FormsOnLedger.

Import Ledger.

Lemma save_at_unique_index trade l (i : nat) old :
  uniqueIds l → l !! i = Some old → id old = id trade →
  handleSaveTrade trade l = <[i:=trade]> l.
Proof.
  intros Huniq Hi Hid.
  destruct (list_find (λ t, id t = id trade) l) as [[j y]|] eqn:Hfind.
  - rewrite (handleSaveTrade_found trade l j y Hfind).
    apply list_find_Some in Hfind as (Hj & Hy & _).
    assert (i = j) as ->; [|done].
    apply (NoDup_lookup (id <$> l) i j (id trade) Huniq).
    + by rewrite list_lookup_fmap, Hi, <- Hid.
    + by rewrite list_lookup_fmap, Hj, <- Hy.
  - apply list_find_None in Hfind. rewrite Forall_forall in Hfind.
    destruct (Hfind old); [|done]. by eapply list_elem_of_lookup_2.
Qed.

Lemma open_count_after_close l (i : nat) sel t' :
  l !! i = Some sel → status sel = open → status t' = closed →
  (length (ExitTradeModal.openTrades (<[i:=t']> l)) + 1
   = length (ExitTradeModal.openTrades l))%nat.
Proof.
  intros Hi Hopen Hclosed. unfold ExitTradeModal.openTrades.
  rewrite insert_take_drop by by eapply lookup_lt_Some.
  rewrite <- (take_drop_middle l i sel Hi) at 3.
  rewrite !filter_app, !length_app.
  rewrite filter_cons_False by congruence.
  rewrite filter_cons_True by done. simpl. lia.
Qed.

(** X5. In a ledger with distinct ids, submitting the exit form closes the
    selected trade where it stands: the trade saved is closed, it replaces
    an open trade with the same id at its position, every other entry is
    untouched and one trade fewer is open. *)
Theorem exit_closes_selected_in_place (form : ExitTradeModal.State)
    (l : list Trade) (t' : Trade) :
  uniqueIds l →
  ExitTradeModal.handleSubmit form (ExitTradeModal.openTrades l) = Some t' →
  ∃ (i : nat) sel,
    l !! i = Some sel ∧ status sel = open ∧ id sel = id t'
    ∧ id t' = ExitTradeModal.selectedTradeId form
    ∧ status t' = closed
    ∧ handleSaveTrade t' l = <[i:=t']> l
    ∧ (length (ExitTradeModal.openTrades (handleSaveTrade t' l)) + 1
       = length (ExitTradeModal.openTrades l))%nat.
Proof.
  intros Huniq Hsub.
  pose proof (ExitTradeModal_closes_by_formula _ _ _ Hsub) as [Hclosed _].
  unfold ExitTradeModal.handleSubmit in Hsub.
  destruct (ExitTradeModal.selectedTrade form _) as [sel|] eqn:Hsel; [|done].
  destruct (_ && _); [|done]. injection Hsub as <-.
  apply selectedTrade_open in Hsel as (Hin & Hopen & Hid).
  apply list_elem_of_lookup_1 in Hin as [i Hi].
  exists i, sel. simpl in *.
  split; [done|]. split; [done|]. split; [done|]. split; [done|]. split; [done|].
  match goal with |- handleSaveTrade ?t l = _ ∧ _ =>
    assert (Hsave : handleSaveTrade t l = <[i:=t]> l)
      by (by apply (save_at_unique_index t l i sel))
  end.
  split; [exact Hsave|]. rewrite Hsave.
  by apply (open_count_after_close l i sel).
Qed.

Lemma exit_closes_selected_in_place_witness :
  let form := {| ExitTradeModal.selectedTradeId := id tslaSample;
                 ExitTradeModal.exitDateInput := "2024-03-08";
                 ExitTradeModal.exitPriceInput := 220;
                 ExitTradeModal.notesInput := "target hit" |} in
  let l := [sampleTrade; tslaSample] in
  uniqueIds l
  ∧ ∃ t', ExitTradeModal.handleSubmit form (ExitTradeModal.openTrades l) = Some t'
          ∧ (pnl t' = Some (compute_pnl 220 200 5))
          ∧ handleSaveTrade t' l = [sampleTrade; t']
          ∧ length (ExitTradeModal.openTrades (handleSaveTrade t' l)) = 1%nat.
Proof.
  intros form l.
  assert (H : uniqueIds l).
  { unfold uniqueIds. simpl. apply NoDup_cons. split.
    - intros Hin. apply list_elem_of_singleton in Hin. discriminate Hin.
    - apply NoDup_singleton. }
  split; [exact H|].
  eexists. split; [reflexivity|]. split; [reflexivity|].
  destruct (exit_closes_selected_in_place form l _ H eq_refl)
    as (i & sel & _ & _ & _ & _ & _ & Hsave & Hcount).
  split; [reflexivity|].
  change (length (ExitTradeModal.openTrades l)) with 2%nat in Hcount. lia.
Defined.

(** X6. The estimate the exit form shows is the result it stores: when the
    submission goes through, the previewed P/L and win flag are the [pnl]
    and [isWin] of the saved trade, and when no estimate is shown the
    submission is refused. *)
Theorem exit_preview_is_stored_result (form : ExitTradeModal.State)
    (openTrades : list Trade) :
  (∀ t', ExitTradeModal.handleSubmit form openTrades = Some t' →
         ∃ p w, ExitTradeModal.pnlPreview form openTrades = Some (p, w)
                ∧ pnl t' = Some p ∧ isWin t' = Some w)
  ∧ (ExitTradeModal.pnlPreview form openTrades = None →
     ExitTradeModal.handleSubmit form openTrades = None).
Proof.
  unfold ExitTradeModal.handleSubmit, ExitTradeModal.pnlPreview.
  destruct (ExitTradeModal.selectedTrade form openTrades) as [sel|]; [|done].
  destruct (truthy_num _ && Qpos_b _) eqn:Hprice.
  - split; [|done]. intros t'.
    destruct (_ && _ && _); [|done]. intros [= <-]. simpl. eauto.
  - split; [|intros _].
    + intros t'. rewrite <- andb_assoc, Hprice, andb_false_r. done.
    + by rewrite <- andb_assoc, Hprice, andb_false_r.
Qed.

Lemma exit_preview_is_stored_result_witness :
  let form := {| ExitTradeModal.selectedTradeId := id tslaSample;
                 ExitTradeModal.exitDateInput := "2024-03-08";
                 ExitTradeModal.exitPriceInput := 220;
                 ExitTradeModal.notesInput := "" |} in
  let blank := {| ExitTradeModal.selectedTradeId := id tslaSample;
                  ExitTradeModal.exitDateInput := "2024-03-08";
                  ExitTradeModal.exitPriceInput := 0;
                  ExitTradeModal.notesInput := "" |} in
  (∃ p w, ExitTradeModal.pnlPreview form [tslaSample] = Some (p, w)
          ∧ (p == 100)%Q ∧ w = true)
  ∧ ExitTradeModal.handleSubmit blank [tslaSample] = None.
Proof.
  intros form blank. split.
  - destruct (proj1 (exit_preview_is_stored_result form [tslaSample]) _ eq_refl)
      as (p & w & Hprev & Hp & Hw).
    exists p, w. split; [exact Hprev|].
    injection Hp as <-. injection Hw as <-. split; reflexivity.
  - exact (proj2 (exit_preview_is_stored_result blank [tslaSample]) eq_refl).
Defined.

(** X7. An edit never adds a row: in a ledger with distinct ids, saving
    the trade form opened on a trade with a non-empty id, whatever was typed,
    overwrites that trade at its position and keeps its id. *)
Theorem edit_replaces_in_place (parseFloat : string → option Q) (l : list Trade)
    (i : nat) (t : Trade) (inputs : list TradeModal.Input) (today now : string) :
  uniqueIds l → l !! i = Some t → id t ≠ "" →
  let t' := TradeModal.edit parseFloat t inputs today now in
  id t' = id t
  ∧ handleSaveTrade t' l = <[i:=t']> l
  ∧ length (handleSaveTrade t' l) = length l.
Proof.
  intros Huniq Hi Hid t'.
  assert (Hsame : id t' = id t).
  { subst t'. unfold TradeModal.edit, TradeModal.handleSubmit. simpl.
    by apply str_or_nonempty. }
  split; [exact Hsame|].
  assert (Hsave : handleSaveTrade t' l = <[i:=t']> l)
    by (by apply (save_at_unique_index t' l i t)).
  split; [exact Hsave|]. rewrite Hsave. apply length_insert.
Qed.

Lemma edit_replaces_in_place_witness :
  let l := [tslaSample; closedSampleTrade] in
  let t' := TradeModal.edit parseNatural closedSampleTrade
              [TradeModal.Change TradeModal.f_shares "20"]
              "2024-02-01" "2024-02-01T09:00:00.000Z" in
  uniqueIds l ∧ id t' = id closedSampleTrade
  ∧ handleSaveTrade t' l = [tslaSample; t'].
Proof.
  intros l t'.
  assert (H : uniqueIds l).
  { unfold uniqueIds. simpl. apply NoDup_cons. split.
    - intros Hin. apply list_elem_of_singleton in Hin. discriminate Hin.
    - apply NoDup_singleton. }
  assert (Hid : id closedSampleTrade ≠ "") by discriminate.
  destruct (edit_replaces_in_place parseNatural l 1 closedSampleTrade
              [TradeModal.Change TradeModal.f_shares "20"]
              "2024-02-01" "2024-02-01T09:00:00.000Z" H eq_refl Hid)
    as (Hsame & Hsave & _).
  split; [exact H|]. split; [exact Hsame|]. exact Hsave.
Defined.

End FormsOnLedger.

(** ** Status and result go together *)

Section ResultInvariant.

Lemma TradeModal_resultPresent st e now :
  resultPresent (TradeModal.handleSubmit st e now).
Proof.
  unfold resultPresent. simpl.
  destruct (TradeModal.isClosing (TradeModal.trade st)); split_and!; eauto.
Qed.

Lemma ExitTradeModal_resultPresent form l t :
  ExitTradeModal.handleSubmit form l = Some t → resultPresent t.
Proof.
  unfold ExitTradeModal.handleSubmit.
  destruct (ExitTradeModal.selectedTrade form l) as [sel|]; [|done].
  destruct (_ && _); [|done]. intros [= <-].
  unfold resultPresent. simpl. split_and!; eauto.
Qed.

Lemma parseRow_resultPresent parseFloat sheetImportId index row t :
  fst (Sheets.parseRow parseFloat sheetImportId index row) = Some t → resultPresent t.
Proof.
  unfold Sheets.parseRow.
  destruct (decide (length row < 4)%nat); [done|].
  destruct (_ && _); [|done].
  destruct (decide (row !! 7%nat = Some "open")); intros [= <-];
    unfold resultPresent; simpl; split_and!; eauto.
Qed.

(** What holds of every parsed row holds of every trade a fetch brings. *)
Lemma fetched_trades_satisfy (P : Trade → Prop) parseFloat sheetImportId signedIn
    sheet response trades log :
  (∀ index row t,
     fst (Sheets.parseRow parseFloat sheetImportId index row) = Some t → P t) →
  Sheets.fetchTradesFromSheet parseFloat sheetImportId signedIn sheet response
  = inr (trades, log) →
  Forall P trades.
Proof.
  intros HP. unfold Sheets.fetchTradesFromSheet.
  destruct (negb signedIn); [done|]. destruct (negb _); [done|].
  destruct response as [|values]; [done|]. intros [= Hrows].
  pose proof (forEachRow_trades parseFloat sheetImportId (default [] values) 0 [] [])
    as Hts.
  rewrite Hrows in Hts. simpl in Hts. subst trades.
  apply Forall_join, Forall_forall. intros ts Hin.
  apply list_elem_of_lookup_1 in Hin as [i Hi].
  rewrite list_lookup_imap in Hi.
  destruct (default [] values !! i) as [row|]; [|done]. injection Hi as <-.
  destruct (fst (Sheets.parseRow parseFloat sheetImportId i row)) as [t|] eqn:E;
    simpl; [|constructor].
  repeat constructor. by eapply HP.
Qed.

Lemma fetchTradesFromSheet_resultPresent parseFloat sheetImportId signedIn sheet
    response trades log :
  Sheets.fetchTradesFromSheet parseFloat sheetImportId signedIn sheet response
  = inr (trades, log) →
  Forall resultPresent trades.
Proof.
  apply fetched_trades_satisfy. intros index row t.
  apply parseRow_resultPresent.
Qed.

Lemma fetchTradesFromBroker_resultPresent clock :
  Forall resultPresent (Broker.fetchTradesFromBroker clock).
Proof.
  unfold Broker.fetchTradesFromBroker, Broker.sampleTrades.
  cbn [imap]. apply Forall_cons. split.
  { unfold resultPresent. simpl. split_and!; eauto. }
  apply Forall_cons. split; [|constructor].
  unfold resultPresent. simpl. split_and!; eauto.
Qed.

Lemma step_keeps (P : Trade → Prop) s a :
  Forall P (Ledger.trades s) →
  match a with
  | Ledger.SaveTrade t => P t
  | Ledger.ImportFromBroker _ _ (Some fetched)
  | Ledger.ImportFromSheets _ (Some fetched) => Forall P fetched
  | _ => True
  end →
  Forall P (Ledger.trades (Ledger.step s a)).
Proof.
  intros Hs Ha. unfold Ledger.step.
  destruct a as [t|tradeId [|]|[|] [|] [fetched|]|[|] [fetched|]]; simpl; try done.
  - unfold Ledger.handleSaveTrade.
    destruct (list_find _ _) as [[i old]|]; [by apply Forall_insert | by constructor].
  - unfold Ledger.handleDeleteTrade.
    apply Forall_forall. intros y [_ Hy]%list_elem_of_filter.
    rewrite Forall_forall in Hs. by apply Hs.
Qed.

(** X8. Status and result go together throughout a session: if the stored
    ledger and what the broker brings have, for every closed trade, an exit
    date, an exit price, a [pnl] and an [isWin], and none of them for an
    open trade, then so has every trade of the ledger after any sequence of
    form saves, exits, deletions and imports. *)
Theorem session_keeps_result_with_status (parseFloat : string → option Q)
    (sheetImportId : nat → string) (saved : option (list Trade))
    (ops : list Session.UserOp) :
  Forall resultPresent (default [] saved) →
  Forall (brokerBrings resultPresent) ops →
  Forall resultPresent
    (Ledger.trades (Session.session parseFloat sheetImportId saved ops)).
Proof.
  intros Hsaved Hops. unfold Session.session.
  induction ops as [|op ops IH] using rev_ind.
  - destruct saved; simpl in *; [done | constructor].
  - apply Forall_app in Hops as [Hops Hop]. rewrite Forall_singleton in Hop.
    rewrite foldl_snoc. specialize (IH Hops).
    unfold Session.perform.
    destruct (Session.action parseFloat sheetImportId _ op) as [a|] eqn:Ha; [|done].
    apply step_keeps; [done|].
    destruct op as [inputs today now|position inputs today now|form|tradeId confirmed
                   |hasCreds confirmed fetched|confirmed signedIn sheet response];
      simpl in Ha.
    + injection Ha as <-. apply TradeModal_resultPresent.
    + destruct (Ledger.trades _ !! position); [|done].
      injection Ha as <-. apply TradeModal_resultPresent.
    + destruct (ExitTradeModal.handleSubmit form _) as [t|] eqn:E; [|done].
      injection Ha as <-. by eapply ExitTradeModal_resultPresent.
    + by injection Ha as <-.
    + injection Ha as <-. simpl in Hop. by destruct fetched.
    + injection Ha as <-. unfold Sheets.importAction.
      destruct (Sheets.fetchTradesFromSheet _ _ _ _ _) as [|[trades log]] eqn:E; [done|].
      by eapply fetchTradesFromSheet_resultPresent.
Qed.

Lemma session_keeps_result_with_status_witness :
  let ops := [ Session.LogNew closedSample "2024-01-02" "2024-01-02T10:00:00.000Z";
               Session.ImportBroker true true
                 (Some (Broker.fetchTradesFromBroker (λ _, 1700000000000%N)));
               Session.Edit 0 clearExitDate "2024-01-10" "2024-01-10T09:00:00.000Z" ] in
  Forall (brokerBrings resultPresent) ops
  ∧ Forall resultPresent
      (Ledger.trades (Session.session parseNatural sampleImportId (Some [tslaSample]) ops)).
Proof.
  intros ops.
  assert (Hsaved : Forall resultPresent (default [] (Some [tslaSample]))).
  { repeat constructor. }
  assert (Hops : Forall (brokerBrings resultPresent) ops).
  { repeat constructor; simpl; eauto. }
  split; [exact Hops|].
  exact (session_keeps_result_with_status parseNatural sampleImportId _ ops Hsaved Hops).
Defined.

End ResultInvariant.

(** ** The risk/reward panel *)

Section RiskRewardFacts.




End RiskRewardFacts.

(** ** Totals *)

Section TotalsFacts.

Import JournalView.






(** X11. The statistics are consistent: winners and losers add up to the
    closed trades, and the win rate lies between 0 and 100. *)
Theorem winRate_between_0_and_100 (trades : list Trade) :
  (winningTrades trades + losingTrades trades = length (closedTrades trades))%nat
  ∧ (0 <= winRate trades)%Q ∧ (winRate trades <= 100)%Q.
Proof.
  assert (Hle : (winningTrades trades ≤ length (closedTrades trades))%nat).
  { unfold winningTrades. apply length_filter. }
  split; [unfold losingTrades; lia|].
  unfold winRate. case_bool_decide as Hn; [|split; lra].
  unfold len.
  set (w := inject_Z (Z.of_nat (winningTrades trades))).
  set (n := inject_Z (Z.of_nat (length (closedTrades trades)))).
  assert (Hw : (0 <= w)%Q).
  { unfold w. rewrite <- (Zle_Qle 0). lia. }
  assert (Hwn : (w <= n)%Q).
  { unfold w, n. rewrite <- Zle_Qle. lia. }
  assert (Hpos : (0 < n)%Q).
  { unfold n. rewrite <- (Zlt_Qlt 0). lia. }
  assert (H0 : (0 <= w / n)%Q) by (apply Qle_shift_div_l; lra).
  assert (H1 : (w / n <= 1)%Q) by (apply Qle_shift_div_r; lra).
  split; lra.
Qed.

End TotalsFacts.

(** ** Live prices *)

Section LivePriceFacts.

Import LivePrices.

Lemma allNull_lookup_from (m : gmap string (option Q)) tickers tk :
  foldl (λ acc ticker, <[ticker := None]> acc) m tickers !! tk
  = if decide (tk ∈ tickers) then Some None else m !! tk.
Proof.
  revert m. induction tickers as [|x tickers IH]; intros m; cbn [foldl].
  - destruct (decide (tk ∈ [])) as [H|]; [by apply elem_of_nil in H | done].
  - rewrite IH. destruct (decide (tk ∈ tickers)) as [Hin|Hout].
    + rewrite decide_True; [done | by right].
    + destruct (decide (tk = x)) as [->|Hne].
      * rewrite decide_True by left. apply lookup_insert_eq.
      * rewrite decide_False by (intros [?|?]%elem_of_cons; done).
        by apply lookup_insert_ne.
Qed.

Lemma unique_from_spec (acc l : list string) x :
  x ∈ foldl (λ acc x, if decide (x ∈ acc) then acc else acc ++ [x]) acc l
  ↔ x ∈ acc ∨ x ∈ l.
Proof.
  revert acc. induction l as [|y l IH]; intros acc; cbn [foldl].
  - split; [by left | intros [?|Hnil]; [done | by apply elem_of_nil in Hnil]].
  - rewrite IH. destruct (decide (y ∈ acc)) as [Hy|Hy].
    + rewrite elem_of_cons. split; [tauto|]. intros [?|[->|?]]; auto.
    + rewrite elem_of_app, list_elem_of_singleton, elem_of_cons. tauto.
Qed.

Lemma unique_from_NoDup (acc l : list string) :
  NoDup acc →
  NoDup (foldl (λ acc x, if decide (x ∈ acc) then acc else acc ++ [x]) acc l).
Proof.
  revert acc. induction l as [|y l IH]; intros acc Hacc; cbn [foldl]; [done|].
  apply IH. destruct (decide (y ∈ acc)); [done|].
  apply NoDup_app. split; [done|]. split; [|apply NoDup_singleton].
  intros z Hz Hzy. apply list_elem_of_singleton in Hzy. by subst.
Qed.

Lemma unrealized_without_prices (liveData : gmap string (option Q)) trades :
  (∀ t, t ∈ trades → status t = open → livePrice liveData (ticker t) = None) →
  JournalView.totalUnrealizedPnl liveData trades = 0%Q.
Proof.
  intros Hnone. unfold JournalView.totalUnrealizedPnl.
  assert (Hopen : ∀ t, t ∈ JournalView.openTrades trades →
                       livePrice liveData (ticker t) = None).
  { intros t [Ht Hin]%list_elem_of_filter. by apply Hnone. }
  revert Hopen. generalize (JournalView.openTrades trades) as o, 0%Q as acc.
  induction o as [|t o IH]; intros acc Ho; [done|].
  cbn [foldl]. pose proof (Ho t ltac:(left)) as Ht. unfold livePrice in Ht.
  destruct (liveData !! ticker t) as [[price|]|]; [done|..];
    apply IH; intros t' Ht'; apply Ho; by right.
Qed.

(** X12. A price refresh asks for each ticker of an open trade once.  When
    it brings no prices, because the answer holds no JSON object or the
    request fails, the unrealized P/L shows 0; after a failure every open
    trade's ticker is recorded with a null price. *)
Theorem refresh_without_prices (trades : list Trade) :
  let tickers := unique (ticker <$> JournalView.openTrades trades) in
  NoDup tickers
  ∧ (∀ tk, tk ∈ tickers ↔ ∃ t, t ∈ trades ∧ status t = open ∧ ticker t = tk)
  ∧ JournalView.totalUnrealizedPnl (fetchLivePrices trades NoJsonObject) trades = 0%Q
  ∧ JournalView.totalUnrealizedPnl (fetchLivePrices trades Threw) trades = 0%Q
  ∧ (∀ t, t ∈ trades → status t = open →
          fetchLivePrices trades Threw !! ticker t = Some None).
Proof.
  intros tickers.
  assert (Hmem : ∀ tk, tk ∈ tickers
                       ↔ ∃ t, t ∈ trades ∧ status t = open ∧ ticker t = tk).
  { intros tk. subst tickers. unfold unique. rewrite unique_from_spec.
    rewrite list_elem_of_fmap. split.
    - intros [Hnil|(t & -> & [Ht Hin]%list_elem_of_filter)];
        [by apply elem_of_nil in Hnil | eauto].
    - intros (t & Hin & Ht & <-). right. exists t. split; [done|].
      by apply list_elem_of_filter. }
  assert (Hthrew : ∀ t, t ∈ trades → status t = open →
                        fetchLivePrices trades Threw !! ticker t = Some None).
  { intros t Hin Ht. unfold fetchLivePrices. fold tickers.
    assert (Htk : ticker t ∈ tickers) by (apply Hmem; eauto).
    destruct tickers as [|x xs] eqn:E; [by apply elem_of_nil in Htk|].
    unfold getLivePrices, allNull. rewrite allNull_lookup_from.
    by rewrite decide_True. }
  split; [apply unique_from_NoDup, NoDup_nil_2|].
  split; [exact Hmem|]. split; [|split; [|exact Hthrew]].
  - apply unrealized_without_prices. intros t _ _.
    unfold fetchLivePrices, getLivePrices, livePrice.
    destruct (unique _); by rewrite lookup_empty.
  - apply unrealized_without_prices. intros t Hin Ht.
    unfold livePrice. by rewrite (Hthrew t Hin Ht).
Qed.

End LivePriceFacts.

(** ** The exported text *)

Section CsvDocument.

Import Csv.

Lemma occurs_append c a b : occurs c (a +:+ b) = occurs c a || occurs c b.
Proof.
  induction a as [|x a IH]; [done|].
  rewrite append_cons. simpl. by rewrite IH, orb_assoc.
Qed.

Lemma newlinesToSpaces_one_line s : occurs newline (newlinesToSpaces s) = false.
Proof.
  induction s as [|c s IH]; [done|].
  cbn [newlinesToSpaces occurs]. rewrite IH, orb_false_r.
  apply bool_decide_eq_false. by destruct (decide (c = newline)).
Qed.

Lemma join_comma_one_line cells :
  Forall (λ s, occurs newline s = false) cells →
  occurs newline (join (String comma EmptyString) cells) = false.
Proof.
  induction 1 as [|x cells Hx _ IH]; [done|].
  destruct cells as [|y cells]; [done|].
  change (join (String comma EmptyString) (x :: y :: cells))
    with (x +:+ String comma (join (String comma EmptyString) (y :: cells))).
  rewrite occurs_append, Hx. cbn [occurs orb]. rewrite IH.
  by rewrite bool_decide_eq_false_2.
Qed.

Lemma csvRow_one_line numberToString t :
  Forall (printsOnOneLine numberToString) (get t <$> header) →
  occurs newline (csvRow numberToString t) = false.
Proof.
  intros Hp. unfold csvRow. apply join_comma_one_line.
  rewrite list_fmap_compose. apply Forall_fmap.
  eapply Forall_impl; [exact Hp|]. intros v Hv. unfold compose.
  destruct v as [s|q|[]|]; cbn [cellText]; try done.
  rewrite append_cons. cbn [occurs].
  rewrite occurs_append, newlinesToSpaces_one_line. done.
Qed.

Lemma countChar_append c a b : countChar c (a +:+ b) = (countChar c a + countChar c b)%nat.
Proof.
  induction a as [|x a IH]; [done|].
  rewrite append_cons. simpl. rewrite IH. lia.
Qed.

Lemma countChar_absent c s : occurs c s = false → countChar c s = 0%nat.
Proof.
  induction s as [|x s IH]; [done|]. intros [Hx Hs]%occurs_cons_false.
  simpl. rewrite decide_False by done. by rewrite IH.
Qed.

Lemma join_LF_lines line lines :
  Forall (λ s, occurs newline s = false) (line :: lines) →
  countChar newline (join LF (line :: lines)) = length lines
  ∧ ∀ cur, splitLines cur (join LF (line :: lines))
           = (cur +:+ line) :: lines.
Proof.
  revert line. induction lines as [|next lines IH]; intros line Hall.
  - apply Forall_cons in Hall as [Hline _]. split.
    + by apply countChar_absent.
    + intros cur. cbn [join]. revert cur.
      induction line as [|c line IHl]; intros cur.
      * by rewrite append_nil_r.
      * apply occurs_cons_false in Hline as [Hc Hline].
        cbn [splitLines]. rewrite decide_False by done.
        rewrite IHl by done. by rewrite snoc_append.
  - apply Forall_cons in Hall as [Hline Hrest].
    destruct (IH next Hrest) as [Hcount Hsplit].
    change (join LF (line :: next :: lines))
      with (line +:+ String newline (join LF (next :: lines))).
    split.
    + rewrite countChar_append, countChar_absent by done.
      cbn [countChar]. rewrite decide_True by done. rewrite Hcount. simpl. lia.
    + intros cur. revert cur.
      induction line as [|c line IHl]; intros cur.
      * rewrite append_nil_l, append_nil_r. cbn [splitLines].
        rewrite decide_True by done. by rewrite Hsplit.
      * apply occurs_cons_false in Hline as [Hc Hline].
        rewrite append_cons. cbn [splitLines]. rewrite decide_False by done.
        rewrite IHl by done. by rewrite snoc_append.
Qed.

Lemma header_line_one_line :
  occurs newline (join (String comma EmptyString) (columnName <$> header)) = false.
Proof. reflexivity. Qed.

Lemma csvString_lines numberToString trades doc :
  Forall (λ t, Forall (printsOnOneLine numberToString) (get t <$> header)) trades →
  csvString numberToString trades = Some doc →
  countChar newline doc = length trades
  ∧ splitLines EmptyString doc
    = join (String comma EmptyString) (columnName <$> header)
      :: (csvRow numberToString <$> trades).
Proof.
  intros Hp Hdoc.
  assert (Hlines : Forall (λ s, occurs newline s = false)
                     (join (String comma EmptyString) (columnName <$> header)
                      :: (csvRow numberToString <$> trades))).
  { constructor; [apply header_line_one_line|].
    apply Forall_fmap. eapply Forall_impl; [exact Hp|].
    intros t Ht. by apply csvRow_one_line. }
  destruct (join_LF_lines _ _ Hlines) as [Hcount Hsplit].
  assert (doc = join LF (join (String comma EmptyString) (columnName <$> header)
                         :: (csvRow numberToString <$> trades))) as ->.
  { destruct trades as [|t trades]; [done|]. by injection Hdoc as <-. }
  split.
  - rewrite Hcount. by rewrite length_fmap.
  - by rewrite Hsplit, append_nil_l.
Qed.

(** X13. The export is refused on an empty ledger; otherwise it is a header
    line followed by exactly one line per trade: no row contains a newline,
    so the text has as many newlines as there are trades. *)
Theorem csv_one_line_per_trade (numberToString : Q → string) (trades : list Trade) :
  Forall (λ t, Forall (printsOnOneLine numberToString) (get t <$> header)) trades →
  (csvString numberToString trades = None ↔ trades = [])
  ∧ Forall (λ t, occurs newline (csvRow numberToString t) = false) trades
  ∧ ∀ doc, csvString numberToString trades = Some doc →
           countChar newline doc = length trades
           ∧ splitLines EmptyString doc
             = join (String comma EmptyString) (columnName <$> header)
               :: (csvRow numberToString <$> trades).
Proof.
  intros Hp. split; [destruct trades; split; done|]. split.
  - eapply Forall_impl; [exact Hp|]. intros t Ht. by apply csvRow_one_line.
  - intros doc Hdoc. by apply csvString_lines.
Qed.

Lemma csv_one_line_per_trade_witness :
  ∃ doc, csvString printInteger [notedSample; quotedSample] = Some doc
         ∧ countChar newline doc = 2%nat
         ∧ length (splitLines EmptyString doc) = 3%nat.
Proof.
  assert (Hp : Forall (λ t, Forall (printsOnOneLine printInteger) (get t <$> header))
                 [notedSample; quotedSample]).
  { repeat (constructor;
            [repeat (constructor; [first [exact I | reflexivity]|]); constructor|]).
    constructor. }
  eexists. split; [reflexivity|].
  destruct (proj2 (proj2 (csv_one_line_per_trade printInteger _ Hp)) _ eq_refl)
    as [Hc Hs].
  split; [exact Hc|]. rewrite Hs. reflexivity.
Defined.

(** X14. Read back line by line, the export gives the column names and,
    for each trade, its twelve fields: every string field with its newlines
    turned into spaces (quotes and commas intact), the numbers as printed,
    an absent field as the empty text. *)
Theorem csv_document_read_back (numberToString : Q → string) (trades : list Trade)
    (doc : string) :
  Forall (λ t, Forall (printsOnOneLine numberToString) (get t <$> header)
               ∧ Forall (printsPlain numberToString) (get t <$> header)) trades →
  csvString numberToString trades = Some doc →
  parseRecord <$> splitLines EmptyString doc
  = (columnName <$> header)
    :: ((λ t, cellContent numberToString ∘ get t <$> header) <$> trades).
Proof.
  intros Hp Hdoc.
  assert (Hone : Forall (λ t, Forall (printsOnOneLine numberToString) (get t <$> header))
                   trades).
  { eapply Forall_impl; [exact Hp|]. by intros t [? _]. }
  destruct (csvString_lines numberToString trades doc Hone Hdoc) as [_ ->].
  rewrite fmap_cons. f_equal.
  rewrite <- list_fmap_compose. apply Forall_fmap_ext_1.
  eapply Forall_impl; [exact Hp|]. intros t [_ Hplain]. simpl.
  by apply parseRecord_csvRow.
Qed.

End CsvDocument.

Section CsvDocumentExamples.

Import Csv.

Lemma csv_document_read_back_witness :
  ∃ doc, csvString printInteger [notedSample; quotedSample] = Some doc
         ∧ parseRecord <$> splitLines EmptyString doc
           = [ ["id"; "ticker"; "status"; "entryDate"; "entryPrice"; "exitDate";
                "exitPrice"; "shares"; "strategy"; "notes"; "pnl"; "isWin"];
               ["2024-01-02T10:00:00.000Z"; "AAPL"; "open"; "2024-01-02"; "100"; "";
                ""; "10"; "Breakout"; "gap up, strong volume trimmed half"; ""; ""];
               ["2024-01-02T10:00:00.000Z"; "AAPL"; "open"; "2024-01-02"; "100"; "";
                ""; "10"; "Breakout"; notes quotedSample; ""; ""] ].
Proof.
  assert (Hp : Forall (λ t, Forall (printsOnOneLine printInteger) (get t <$> header)
                            ∧ Forall (printsPlain printInteger) (get t <$> header))
                 [notedSample; quotedSample]).
  { repeat (constructor;
      [split;
       [repeat (constructor; [first [exact I | reflexivity]|]); constructor
       |repeat (constructor; [first [exact I | split; reflexivity]|]); constructor]|]).
    constructor. }
  eexists. split; [reflexivity|].
  exact (csv_document_read_back printInteger _ _ Hp eq_refl).
Defined.

End CsvDocumentExamples.

(** ** The sheet: what an import brings, and a sync followed by an import *)

Section SheetMore.

Import Sheets.

Variable parseFloat : string → option Q.
Variable sheetImportId : nat → string.

(** X15. Whatever the sheet holds, every trade an import brings has a
    ticker and an entry date, and an id as well when the generated ids are
    not empty; the id is the one of the row when the row has one. *)
Theorem imported_trades_have_essentials (signedIn : bool) (sheet : option string)
    (response : Response) (trades : list Trade) (log : list Log) :
  (∀ index, sheetImportId index ≠ "") →
  fetchTradesFromSheet parseFloat sheetImportId signedIn sheet response
  = inr (trades, log) →
  Forall (λ t, id t ≠ "" ∧ ticker t ≠ "" ∧ entryDate t ≠ "") trades.
Proof.
  intros Hid. apply fetched_trades_satisfy. intros index row t.
  unfold Sheets.parseRow.
  destruct (decide (length row < 4)%nat); [done|].
  destruct (_ && _) eqn:E; [|done].
  apply andb_true_iff in E as [Htk Hdate]. apply truthy_str_true in Htk, Hdate.
  assert (Hrowid : str_or (row !! 0%nat) (sheetImportId index) ≠ "").
  { unfold str_or. destruct (row !! 0%nat) as [s|]; [|apply Hid].
    destruct (decide (s = "")); [apply Hid | done]. }
  destruct (decide (row !! 7%nat = Some "open")); intros [= <-]; simpl; done.
Qed.

Variable numberToString : Q → string.





End SheetMore.

Section SheetMoreExamples.

Import Sheets.

Lemma imported_trades_have_essentials_witness :
  ∃ trades log,
    fetchTradesFromSheet parseNatural sampleImportId true (Some "sheet-1")
      (Result (Some threeRows)) = inr (trades, log)
    ∧ Forall (λ t, id t ≠ "" ∧ ticker t ≠ "" ∧ entryDate t ≠ "") trades.
Proof.
  eexists _, _. split; [reflexivity|].
  eapply (imported_trades_have_essentials parseNatural sampleImportId true
            (Some "sheet-1") (Result (Some threeRows))).
  - intros index. discriminate.
  - reflexivity.
Defined.


End SheetMoreExamples.

(** ** Imports that do not go through *)

Section ImportGuards.



(** X18. The broker import needs stored credentials: with none saved, after
    the credentials are cleared, or with an empty key or secret, it leaves
    the ledger as it was whatever the answers; with both saved non-empty and
    the import confirmed, the broker's trades replace the ledger. *)
Theorem broker_import_needs_credentials (s : Ledger.App)
    (creds : Broker.BrokerCredentials) (entry : option Broker.BrokerCredentials)
    (confirmed : bool) (clock : option (nat → N)) :
  Ledger.step s (Broker.importAction None confirmed clock) = s
  ∧ Ledger.step s
      (Broker.importAction (Broker.clearBrokerCredentials entry) confirmed clock) = s
  ∧ (Broker.apiKey creds = "" ∨ Broker.apiSecret creds = "" →
     Ledger.step s
       (Broker.importAction (Broker.saveBrokerCredentials creds entry) confirmed clock)
     = s)
  ∧ (Broker.apiKey creds ≠ "" → Broker.apiSecret creds ≠ "" →
     ∀ c, Ledger.trades
            (Ledger.step s
               (Broker.importAction (Broker.saveBrokerCredentials creds entry) true
                  (Some c)))
          = Broker.fetchTradesFromBroker c).
Proof.
  split; [done|]. split; [done|]. split.
  - intros Hblank. unfold Broker.importAction, Broker.hasCredentials. simpl.
    assert (truthy_str (Broker.apiKey creds) && truthy_str (Broker.apiSecret creds)
            = false) as ->; [|done].
    apply andb_false_iff. unfold truthy_str.
    destruct Hblank as [Hk | Hs]; [left | right];
      apply bool_decide_eq_false; intros Hne; by apply Hne.
  - intros Hk Hs c. unfold Broker.importAction, Broker.hasCredentials. simpl.
    by rewrite (proj2 (truthy_str_true _) Hk), (proj2 (truthy_str_true _) Hs).
Qed.

Lemma broker_import_needs_credentials_witness :
  let creds := {| Broker.apiKey := "PK123"; Broker.apiSecret := "s3cret" |} in
  let s' := Ledger.step (Ledger.mount (Some [tslaSample]))
              (Broker.importAction (Broker.saveBrokerCredentials creds None) true
                 (Some (λ _, 1700000000000%N))) in
  (ticker <$> Ledger.trades s') = ["AAPL"; "GOOGL"]
  ∧ (id <$> Ledger.trades s') = ["broker-1700000000000-0"; "broker-1700000000000-1"]
  ∧ Ledger.trades s' = Broker.fetchTradesFromBroker (λ _, 1700000000000%N).
Proof.
  intros creds s'. split; [reflexivity|]. split; [vm_compute; reflexivity|].
  apply (proj2 (proj2 (proj2
           (broker_import_needs_credentials (Ledger.mount (Some [tslaSample]))
              creds None true None)))); discriminate.
Defined.

End ImportGuards.

(** ** The watchlist *)

Section WatchlistFacts.

Import Watchlist.

Variable trimUpper : string → string.

Lemma handleAddItem_Some newItem now wl upd :
  handleAddItem trimUpper newItem now wl = Some upd →
  trimUpper newItem ≠ ""
  ∧ (∀ item, item ∈ wl → ticker item ≠ trimUpper newItem)
  ∧ upd = (λ prev, {| id := now; ticker := trimUpper newItem |} :: prev).
Proof.
  unfold handleAddItem. destruct (_ && _) eqn:E; [|done]. intros [= <-].
  apply andb_true_iff in E as [Htk Hnew].
  apply truthy_str_true in Htk. apply negb_true_iff, bool_decide_eq_false in Hnew.
  split; [done|]. split; [|done].
  intros item Hin Heq. apply Hnew, Exists_exists. eauto.
Qed.

Lemma step_keeps_unique v a :
  uniqueTickers (watchlist v) → uniqueTickers (watchlist (step trimUpper v a)).
Proof.
  intros Hv. unfold step. destruct a as [newItem now|itemId]; cbn [handler].
  - destruct (handleAddItem trimUpper newItem now (watchlist v)) as [upd|] eqn:E;
      [|done].
    apply handleAddItem_Some in E as (_ & Hnew & ->). simpl.
    unfold uniqueTickers. simpl. apply NoDup_cons. split; [|done].
    intros (item & Heq & Hin)%list_elem_of_fmap. by apply (Hnew item).
  - simpl. unfold uniqueTickers, handleRemoveItem.
    eapply sublist_NoDup; [exact Hv|]. apply fmap_sublist, sublist_filter.
Qed.

Lemma step_stored v a :
  stored v = Some (watchlist v) →
  stored (step trimUpper v a) = Some (watchlist (step trimUpper v a)).
Proof.
  intros Hv. unfold step. by destruct (handler trimUpper a (watchlist v)).
Qed.

(** X19. The watchlist never holds a ticker twice, and its stored copy
    follows it: starting from a stored list without repeated tickers, after
    any sequence of additions and removals the tickers are all different
    and the entry of local storage holds the list in memory.  Adding the
    same text again right away changes nothing. *)
Theorem watchlist_tickers_stay_unique (saved : option (list WatchlistItem))
    (acts : list Action) (newItem now now' : string) :
  uniqueTickers (default [] saved) →
  let v := run trimUpper saved acts in
  uniqueTickers (watchlist v)
  ∧ stored v = Some (watchlist v)
  ∧ step trimUpper (step trimUpper v (AddItem newItem now)) (AddItem newItem now')
    = step trimUpper v (AddItem newItem now).
Proof.
  intros Hsaved v.
  assert (Hinv : uniqueTickers (watchlist v) ∧ stored v = Some (watchlist v)).
  { subst v. unfold run. induction acts as [|a acts IH] using rev_ind.
    - destruct saved; simpl in *; [done|]. split; [apply NoDup_nil_2 | done].
    - rewrite foldl_snoc. destruct IH as [IH1 IH2].
      split; [by apply step_keeps_unique | by apply step_stored]. }
  destruct Hinv as [Huniq Hstored]. split; [done|]. split; [done|].
  unfold step at 2 3. cbn [handler].
  destruct (handleAddItem trimUpper newItem now (watchlist v)) as [upd|] eqn:E.
  - apply handleAddItem_Some in E as (Htk & _ & ->).
    unfold step. cbn [handler persistEffect watchlist].
    unfold handleAddItem.
    rewrite (proj2 (truthy_str_true _) Htk).
    rewrite bool_decide_eq_true_2; [done|]. by left.
  - unfold step. cbn [handler]. unfold handleAddItem in *.
    by destruct (_ && _).
Qed.

End WatchlistFacts.

Section MoreExamples.

Lemma watchlist_tickers_stay_unique_witness :
  let v := Watchlist.run (λ s, s) None
             [Watchlist.AddItem "NVDA" "t1"; Watchlist.AddItem "AMD" "t2";
              Watchlist.AddItem "NVDA" "t3"; Watchlist.RemoveItem "t2"] in
  uniqueTickers (default [] None)
  ∧ uniqueTickers (Watchlist.watchlist v)
  ∧ (Watchlist.ticker <$> Watchlist.watchlist v) = ["NVDA"]
  ∧ Watchlist.stored v = Some (Watchlist.watchlist v).
Proof.
  intros v.
  assert (H : uniqueTickers (default [] (@None (list Watchlist.WatchlistItem))))
    by apply NoDup_nil_2.
  destruct (watchlist_tickers_stay_unique (λ s, s) None
              [Watchlist.AddItem "NVDA" "t1"; Watchlist.AddItem "AMD" "t2";
               Watchlist.AddItem "NVDA" "t3"; Watchlist.RemoveItem "t2"]
              "NVDA" "t4" "t5" H) as (Hu & Hs & _).
  split; [exact H|]. split; [exact Hu|]. split; [reflexivity | exact Hs].
Defined.

Lemma refresh_without_prices_witness :
  let trades := [tslaSample; closedSampleTrade; sampleTrade; tslaSample] in
  LivePrices.unique (ticker <$> JournalView.openTrades trades) = ["TSLA"; "AAPL"]
  ∧ LivePrices.fetchLivePrices trades LivePrices.Threw !! "TSLA" = Some None
  ∧ JournalView.totalUnrealizedPnl
      (LivePrices.fetchLivePrices trades LivePrices.Threw) trades = 0%Q.
Proof.
  intros trades.
  destruct (refresh_without_prices trades) as (_ & _ & _ & Hzero & Hnull).
  split; [reflexivity|].
  split; [|exact Hzero].
  apply (Hnull tslaSample); [left | reflexivity].
Defined.

End MoreExamples.

(** ** New positions and repeated ids *)

Section IdEdgeCases.

Import Ledger.

(** X20. A new position takes the clock as its id.  When no trade of the
    ledger has that id it goes to the head of the ledger; when one has (two
    positions logged within the same millisecond), the new position
    overwrites the first such trade and the ledger does not grow. *)
Theorem new_position_id_is_the_clock (parseFloat : string → option Q)
    (inputs : list TradeModal.Input) (today now : string) (l : list Trade) :
  now ≠ "" →
  let t := TradeModal.create parseFloat inputs today now in
  id t = now
  ∧ ((∀ y, y ∈ l → id y ≠ now) → handleSaveTrade t l = t :: l)
  ∧ (∀ (i : nat) old, l !! i = Some old → id old = now →
       (∀ (j : nat) y, l !! j = Some y → (j < i)%nat → id y ≠ now) →
       handleSaveTrade t l = <[i:=t]> l
       ∧ length (handleSaveTrade t l) = length l).
Proof.
  intros Hnow t.
  assert (Hid : id t = now).
  { subst t. unfold TradeModal.create, TradeModal.handleSubmit. simpl.
    unfold str_or. done. }
  split; [exact Hid|]. split.
  - intros Hnew. apply handleSaveTrade_fresh, list_find_None, Forall_forall.
    intros y Hy. rewrite Hid. by apply Hnew.
  - intros i old Hi Hold Hfirst.
    assert (Hsave : handleSaveTrade t l = <[i:=t]> l).
    { apply (handleSaveTrade_found t l i old), list_find_Some.
      split; [done|]. split; [by rewrite Hid|].
      intros j y Hj Hji. rewrite Hid. by apply (Hfirst j y). }
    split; [exact Hsave|]. rewrite Hsave. apply length_insert.
Qed.

Lemma new_position_id_is_the_clock_witness :
  let now := "2024-03-01T10:00:00.000Z" in
  let t := TradeModal.create parseNatural closedSample "2024-03-01" now in
  id t = now
  ∧ handleSaveTrade t [sampleTrade] = [t; sampleTrade]
  ∧ handleSaveTrade t [sampleTrade; tslaSample] = [sampleTrade; t].
Proof.
  intros now t.
  assert (Hnow : now ≠ "") by discriminate.
  destruct (new_position_id_is_the_clock parseNatural closedSample "2024-03-01" now
              [sampleTrade] Hnow) as (Hid & Hfresh & _).
  destruct (new_position_id_is_the_clock parseNatural closedSample "2024-03-01" now
              [sampleTrade; tslaSample] Hnow) as (_ & _ & Hclash).
  split; [exact Hid|]. split.
  - apply Hfresh. intros y Hy. apply list_elem_of_singleton in Hy. subst y.
    discriminate.
  - apply (Hclash 1%nat tslaSample eq_refl eq_refl).
    intros j y Hj Hlt. assert (j = 0%nat) as -> by lia.
    injection Hj as <-. discriminate.
Defined.

(** X21. Ids are what a save goes by: when two trades of the ledger share
    an id (an import can bring such rows), saving an edit of the later one
    overwrites the earlier one and leaves the later one as it was. *)
Theorem edit_of_later_duplicate_hits_first (parseFloat : string → option Q)
    (l : list Trade) (i j : nat) (a b : Trade) (inputs : list TradeModal.Input)
    (today now : string) :
  l !! i = Some a → l !! j = Some b → (i < j)%nat →
  id a = id b → id b ≠ "" →
  (∀ (k : nat) y, l !! k = Some y → (k < i)%nat → id y ≠ id b) →
  let b' := TradeModal.edit parseFloat b inputs today now in
  handleSaveTrade b' l !! i = Some b'
  ∧ handleSaveTrade b' l !! j = Some b.
Proof.
  intros Hi Hj Hij Hab Hb Hfirst b'.
  assert (Hid : id b' = id b).
  { subst b'. unfold TradeModal.edit, TradeModal.handleSubmit. simpl.
    by apply str_or_nonempty. }
  rewrite (handleSaveTrade_found b' l i a).
  - split.
    + apply list_lookup_insert_eq. by eapply lookup_lt_Some.
    + rewrite list_lookup_insert_ne by lia. done.
  - apply list_find_Some. split; [done|]. split; [by rewrite Hid|].
    intros k y Hk Hki. rewrite Hid. by apply (Hfirst k y).
Qed.

Lemma edit_of_later_duplicate_hits_first_witness :
  let twin := curveTrade (id sampleTrade) "2024-01-05" 10 in
  let l := [sampleTrade; twin] in
  let twin' := TradeModal.edit parseNatural twin
                 [TradeModal.Change TradeModal.f_notes "second thoughts"]
                 "2024-02-01" "2024-02-01T09:00:00.000Z" in
  handleSaveTrade twin' l !! 0%nat = Some twin'
  ∧ handleSaveTrade twin' l !! 1%nat = Some twin
  ∧ length (handleSaveTrade twin' l) = 2%nat.
Proof.
  intros twin l twin'.
  assert (Hb : id twin ≠ "") by discriminate.
  destruct (edit_of_later_duplicate_hits_first parseNatural l 0 1 sampleTrade twin
              [TradeModal.Change TradeModal.f_notes "second thoughts"]
              "2024-02-01" "2024-02-01T09:00:00.000Z" eq_refl eq_refl
              ltac:(lia) eq_refl Hb ltac:(intros; lia)) as [H0 H1].
  split; [exact H0|]. split; [exact H1 | reflexivity].
Defined.

End IdEdgeCases.

(** ** Results and prices *)

Section ResultsAndPrices.

Lemma fetchTradesFromBroker_follows_prices clock :
  Forall resultFollowsPrices (Broker.fetchTradesFromBroker clock).
Proof.
  unfold Broker.fetchTradesFromBroker, Broker.sampleTrades. cbn [imap].
  apply Forall_cons. split.
  { intros _. eexists _, _. simpl.
    split; [reflexivity|]. split; [discriminate|]. split; [reflexivity|].
    split; [reflexivity|]. split; reflexivity. }
  apply Forall_cons. split; [|constructor].
  intros _. eexists _, _. simpl.
  split; [reflexivity|]. split; [discriminate|]. split; [reflexivity|].
  split; [reflexivity|]. split; reflexivity.
Qed.

(** X22. Without an import from the sheet, stored results stay in line
    with prices: if every closed trade of the stored ledger, and of what the
    broker brings, has a filled exit date, a positive exit price, a [pnl] of
    (exitPrice - entryPrice) x shares and an [isWin] of [pnl > 0], then so
    has every closed trade after any sequence of form saves, exits,
    deletions and broker imports. *)
Theorem session_results_follow_prices (parseFloat : string → option Q)
    (sheetImportId : nat → string) (saved : option (list Trade))
    (ops : list Session.UserOp) :
  Forall resultFollowsPrices (default [] saved) →
  Forall keepsResultsInLine ops →
  Forall resultFollowsPrices
    (Ledger.trades (Session.session parseFloat sheetImportId saved ops)).
Proof.
  intros Hsaved Hops. unfold Session.session.
  induction ops as [|op ops IH] using rev_ind.
  - destruct saved; simpl in *; [done | constructor].
  - apply Forall_app in Hops as [Hops Hop]. rewrite Forall_singleton in Hop.
    rewrite foldl_snoc. specialize (IH Hops).
    unfold Session.perform.
    destruct (Session.action parseFloat sheetImportId _ op) as [a|] eqn:Ha; [|done].
    apply step_keeps; [done|].
    destruct op as [inputs today now|position inputs today now|form|tradeId confirmed
                   |hasCreds confirmed fetched|confirmed signedIn sheet response];
      simpl in Ha, Hop.
    + injection Ha as <-. intros Hc. by apply TradeModal_closes_by_formula.
    + destruct (Ledger.trades _ !! position); [|done].
      injection Ha as <-. intros Hc. by apply TradeModal_closes_by_formula.
    + destruct (ExitTradeModal.handleSubmit form _) as [t|] eqn:E; [|done].
      injection Ha as <-. intros _.
      by apply ExitTradeModal_closes_by_formula in E as [_ ?].
    + by injection Ha as <-.
    + injection Ha as <-. by destruct fetched.
    + done.
Qed.

Lemma session_results_follow_prices_witness :
  let ops := [ Session.ImportBroker true true
                 (Some (Broker.fetchTradesFromBroker (λ _, 1700000000000%N)));
               Session.LogNew closedSample "2024-01-02" "2024-01-02T10:00:00.000Z";
               Session.Edit 1 [TradeModal.Change TradeModal.f_notes "late entry"]
                 "2024-01-10" "2024-01-10T09:00:00.000Z" ] in
  Forall keepsResultsInLine ops
  ∧ Forall resultFollowsPrices
      (Ledger.trades (Session.session parseNatural sampleImportId (Some [tslaSample]) ops)).
Proof.
  intros ops.
  assert (Hsaved : Forall resultFollowsPrices (default [] (Some [tslaSample]))).
  { constructor; [discriminate | constructor]. }
  assert (Hops : Forall keepsResultsInLine ops).
  { constructor; [apply fetchTradesFromBroker_follows_prices|].
    repeat (constructor; [exact I|]). constructor. }
  split; [exact Hops|].
  exact (session_results_follow_prices parseNatural sampleImportId _ ops Hsaved Hops).
Defined.

(** X23. For a trade whose result follows its prices and whose share count
    is positive, a win is an exit above the entry: the trade is a win
    exactly when the exit price exceeds the entry price, its [pnl] is
    positive exactly then, and a trade closed at its entry price is stored
    as a loss with a [pnl] of 0. *)
Theorem win_is_exit_above_entry (t : Trade) :
  closedByFormula t → (0 < shares t)%Q →
  ∃ x p, exitPrice t = Some x ∧ pnl t = Some p
         ∧ (isWin t = Some true ↔ (entryPrice t < x)%Q)
         ∧ ((0 < p)%Q ↔ (entryPrice t < x)%Q)
         ∧ ((x == entryPrice t)%Q → isWin t = Some false ∧ (p == 0)%Q).
Proof.
  intros (d & x & _ & _ & Hx & _ & Hp & Hw) Hn.
  exists x, (compute_pnl x (entryPrice t) (shares t)).
  split; [done|]. split; [done|].
  assert (Hsign : (0 < compute_pnl x (entryPrice t) (shares t))%Q
                  ↔ (entryPrice t < x)%Q).
  { unfold compute_pnl. split; intros H; nra. }
  split; [|split; [exact Hsign|]].
  - rewrite Hw, <- Hsign, <- Qpos_b_true. split; [by intros [= ->] | by intros ->].
  - intros Heq. rewrite Hw. split.
    + destruct (Qpos_b _) eqn:E; [|done].
      apply Qpos_b_true, Hsign in E. lra.
    + unfold compute_pnl. nra.
Qed.

Lemma win_is_exit_above_entry_witness :
  closedByFormula closedSampleTrade ∧ (0 < shares closedSampleTrade)%Q
  ∧ isWin closedSampleTrade = Some true
  ∧ (entryPrice closedSampleTrade < 110)%Q.
Proof.
  assert (H : closedByFormula closedSampleTrade).
  { exists "2024-01-09", (inject_Z 110).
    split; [reflexivity|]. split; [discriminate|]. split; [reflexivity|].
    split; [reflexivity|]. split; reflexivity. }
  assert (Hn : (0 < shares closedSampleTrade)%Q) by reflexivity.
  destruct (win_is_exit_above_entry closedSampleTrade H Hn)
    as (x & p & Hx & _ & Hwin & _ & _).
  injection Hx as <-.
  split; [exact H|]. split; [exact Hn|].
  assert (Hlt : (entryPrice closedSampleTrade < inject_Z 110)%Q) by reflexivity.
  split; [exact (proj2 Hwin Hlt) | exact Hlt].
Defined.

End ResultsAndPrices.
